(** * Passkey flows of the LoginID web SDK: a shallow embedding

    The class [Passkeys] (createPasskey, authenticateWithPasskey,
    authenticateWithPasskeyAutofill, requestOtp, confirmTransaction and the
    private helper invokePasskeyApi) is glue over two external systems: a
    backend REST API and the browser credential API.  Every call that leaves
    the class is modelled as a [Call] answered by an arbitrary environment;
    the methods are programs of a small state-and-exception monad that
    records the calls they make, in order, together with their answers. *)

From Stdlib Require Import String List Bool.
From stdpp Require Import base option gmap strings.

Open Scope string_scope.
Open Scope list_scope.

(** ** Thrown values *)

(** A JavaScript [throw] may carry any value; the catch block of
    invokePasskeyApi only distinguishes [error instanceof Error]. *)
Inductive JsError : Type :=
| ErrorObject (name message : string)
| ThrownValue (value : string).

Definition instanceofError (e : JsError) : bool :=
  match e with
  | ErrorObject _ _ => true
  | ThrownValue _ => false
  end.

(** ** JavaScript truthiness of the values the flows test *)

Definition truthy (s : string) : bool := negb (String.eqb s "").

Definition truthyOpt (o : option string) : bool :=
  match o with
  | Some s => truthy s
  | None => false
  end.

(** [a || b] for a string [a] and a possibly undefined string [b]. *)
Definition js_or (a : string) (b : option string) : option string :=
  if truthy a then Some a else b.

(** [...(v && { field: v })]: the field is present only for a truthy [v]. *)
Definition spread_if_truthy (v : option string) : option string :=
  if truthyOpt v then v else None.

(** ** Data exchanged with the caller, the backend and the browser *)

(** Payloads the client never inspects (WebAuthn option blobs, device
    descriptions) are kept as the serialised text they travel as. *)
Definition Json : Type := string.

(** A caller-supplied callback function, identified by a handle. *)
Definition Callback : Type := nat.

Record Callbacks : Type := {
  onSuccess : option Callback;
  onFallback : option Callback;
}.

(** The option bags of the public methods (CreatePasskeyOptions,
    AuthenticateWithPasskeysOptions, RequestOtpOptions,
    ConfirmTransactionOptions and the autofill variant) are one JavaScript
    object shape with optional fields; requestOtp hands its bag on to
    authenticateWithPasskey as it is. *)
Record Options : Type := {
  authzToken : option string;
  usernameType : option string;
  displayName : option string;
  callbacks : option Callbacks;
  crossPlatform : bool;
  passkeyName : option string;
  autoFill : bool;
  nonce : option string;
  txType : option string;
  webauthn : Json;
}.

Definition set_authzToken (o : Options) (t : option string) : Options :=
  {| authzToken := t; usernameType := usernameType o;
     displayName := displayName o; callbacks := callbacks o;
     crossPlatform := crossPlatform o; passkeyName := passkeyName o;
     autoFill := autoFill o; nonce := nonce o; txType := txType o;
     webauthn := webauthn o |}.

Definition set_autoFill (o : Options) (b : bool) : Options :=
  {| authzToken := authzToken o; usernameType := usernameType o;
     displayName := displayName o; callbacks := callbacks o;
     crossPlatform := crossPlatform o; passkeyName := passkeyName o;
     autoFill := b; nonce := nonce o; txType := txType o;
     webauthn := webauthn o |}.

(** The empty object [{}] used as the default of every [options] argument. *)
Definition no_options : Options :=
  {| authzToken := None; usernameType := None; displayName := None;
     callbacks := None; crossPlatform := false; passkeyName := None;
     autoFill := false; nonce := None; txType := None; webauthn := "" |}.

(** [opts?.callbacks?.onSuccess] and [opts?.callbacks?.onFallback]. *)
Definition onSuccess_of (o : Options) : option Callback :=
  match callbacks o with
  | Some cbs => onSuccess cbs
  | None => None
  end.

Definition onFallback_of (o : Options) : option Callback :=
  match callbacks o with
  | Some cbs => onFallback cbs
  | None => None
  end.

Record ParsedJwt : Type := {
  jwt_username : option string;
}.

Record UserInfo : Type := {
  user_username : string;
  user_usernameType : option string;
  user_displayName : option string;
}.

Record RegInitRequestBody : Type := {
  reg_app_id : string;
  reg_deviceInfo : Json;
  reg_user : UserInfo;
  reg_securityKey : bool;
  reg_trustItems : option string;
}.

Record RegInit : Type := {
  reg_session : string;
  registrationRequestOptions : Json;
}.

Record RegCompleteRequestBody : Type := {
  creationResult : Json;
  rc_session : string;
  rc_passkeyName : option string;
}.

Definition set_passkeyName (b : RegCompleteRequestBody) (n : option string)
  : RegCompleteRequestBody :=
  {| creationResult := creationResult b; rc_session := rc_session b;
     rc_passkeyName := n |}.

(** The [JWT] response of the completion endpoints: [userId] and
    [jwtAccess] are required (the fallback branch builds a JWT from these two
    alone), [deviceId] is optional. *)
Record JWT : Type := {
  userId : string;
  jwtAccess : string;
  jwt_deviceId : option string;
}.

(** The result envelope: token, user id, success flag, fallback flag. *)
Record AuthResult : Type := {
  token : string;
  res_userId : string;
  isAuthenticated : bool;
  isFallback : bool;
}.

Record AuthInitRequestBody : Type := {
  auth_app_id : string;
  auth_deviceInfo : Json;
  auth_user : UserInfo;
  auth_trustItems : option string;
}.

Record AuthInit : Type := {
  action : string;
  crossAuthMethods : list string;
  fallbackMethods : list string;
  assertionOptions : Json;
  session : string;
}.

Record AssertionResult : Type := {
  authenticatorData : string;
  clientDataJSON : string;
  credentialId : string;
  signature : string;
}.

Record AuthCompleteRequestBody : Type := {
  assertionResult : AssertionResult;
  ac_session : string;
}.

Record Otp : Type := {
  code : string;
  expiresAt : string;
}.

Record TxInitRequestBody : Type := {
  tx_username : string;
  tx_txPayload : string;
  tx_nonce : option string;
  tx_txType : option string;
}.

Record TxInit : Type := {
  tx_assertionOptions : Json;
  tx_session : string;
}.

Record TxCompleteRequestBody : Type := {
  txc_authenticatorData : string;
  txc_clientData : string;
  txc_keyHandle : string;
  txc_session : string;
  txc_signature : string;
}.

Record TxComplete : Type := {
  txc_token : string;
  txc_credentialId : string;
  txc_nonce : string;
}.

(** ** Calls that leave the class *)

Inductive Call : Type :=
| getAppId
| getDeviceId (appId : string)
| defaultDeviceInfo (deviceId : string)
| getToken (opts : Options)
| setOrSignWithTrustId (appId username : string)
| regRegInit (requestBody : RegInitRequestBody) (authorization : option string)
| createNavigatorCredential (regInit : RegInit)
| regRegComplete (requestBody : RegCompleteRequestBody)
| setJwtCookie (jwt : string)
| persistDeviceId (appId : string) (deviceId : option string)
| authAuthInit (requestBody : AuthInitRequestBody)
| getNavigatorCredential (authInit : AuthInit) (options : option Options)
| authAuthComplete (requestBody : AuthCompleteRequestBody)
| callOnSuccess (cb : Callback) (result : AuthResult)
| callOnFallback (cb : Callback) (username : string)
    (fallbackOptions : list string)
| authAuthCodeRequest (authorization : string)
| txTxInit (requestBody : TxInitRequestBody)
| txTxComplete (requestBody : TxCompleteRequestBody)
| reportError (session : string) (error : JsError).

(** What each call resolves to when it does not throw. *)
Definition Resp (c : Call) : Type :=
  match c with
  | getAppId => string
  | getDeviceId _ => string
  | defaultDeviceInfo _ => Json
  | getToken _ => string
  | setOrSignWithTrustId _ _ => option string
  | regRegInit _ _ => RegInit
  | createNavigatorCredential _ => RegCompleteRequestBody
  | regRegComplete _ => JWT
  | setJwtCookie _ => unit
  | persistDeviceId _ _ => unit
  | authAuthInit _ => AuthInit
  | getNavigatorCredential _ _ => AuthCompleteRequestBody
  | authAuthComplete _ => JWT
  | callOnSuccess _ _ => unit
  | callOnFallback _ _ _ => unit
  | authAuthCodeRequest _ => Otp
  | txTxInit _ => TxInit
  | txTxComplete _ => TxComplete
  | reportError _ _ => unit
  end.

(** One entry of the log of a run: the call and how it was answered. *)
Record Event : Type := Ev {
  ev_call : Call;
  ev_result : JsError + Resp ev_call;
}.

Definition ev_ok (e : Event) : bool :=
  match ev_result e with
  | inr _ => true
  | inl _ => false
  end.

(** Classification of calls, used to state which calls a run makes. *)
Definition is_credential_call (c : Call) : bool :=
  match c with
  | getNavigatorCredential _ _ | createNavigatorCredential _ => true
  | _ => false
  end.

Definition is_completion_call (c : Call) : bool :=
  match c with
  | authAuthComplete _ | regRegComplete _ | txTxComplete _ => true
  | _ => false
  end.

Definition is_storage_write (c : Call) : bool :=
  match c with
  | setJwtCookie _ | persistDeviceId _ _ => true
  | _ => false
  end.

Definition is_fallback_call (c : Call) : bool :=
  match c with
  | callOnFallback _ _ _ => true
  | _ => false
  end.

(** ** Persistent client-side state *)

Record Storage : Type := {
  cookies : gmap string string;
  localStorage : gmap string string;
}.

(** ** The world of a run and the environment of the class *)

(** The persistent client state together with everything outside it: the
    backend, the browser and its authenticators, the trust key store, the
    caller's callbacks. *)
Record World (Outside : Type) : Type := {
  storage : Storage;
  outside : Outside;
}.
Arguments storage {Outside} _.
Arguments outside {Outside} _.

(** What an instance of the class is built on: its services, its stores and
    the helpers it imports. *)
Record Env (Outside : Type) : Type := {
  (** How a call is answered: the answer may depend on the persistent
      client state, it resolves or throws, and the outside moves on. *)
  env_oracle :
    forall c : Call, Storage -> Outside -> (JsError + Resp c) * Outside;
  (** Names under which the session manager and the device store keep
      their values. *)
  env_jwtCookieName : string;
  env_deviceIdKey : string -> string;
  (** lib/defaults: merge the caller's input with defaults. *)
  env_passkeyOptions : string -> string -> Options -> Options;
  env_confirmTransactionOptions : string -> Options -> Options;
  (** lib/utils: merges crossAuthMethods and fallbackMethods. *)
  env_mergeFallbackOptions : AuthInit -> list string;
  (** core/utils/crypto: decodes the payload of a token; it may throw. *)
  env_parseJwt : string -> JsError + ParsedJwt;
  (** core/webauthn: the error thrown when no login option is left. *)
  env_NO_LOGIN_OPTIONS_ERROR : JsError;
  (** lib/defaults: the values toAuthResult gives its two flags when the
      call site omits them. *)
  env_default_isAuthenticated : bool;
  env_default_isFallback : bool;
  (** core/client-events and the stored configuration: what
      [new ClientEvents(this.config.getConfig())] does, either building the
      service or throwing. *)
  env_clientEvents : JsError + unit;
}.
Arguments env_oracle {Outside} _ _ _ _.
Arguments env_jwtCookieName {Outside} _.
Arguments env_deviceIdKey {Outside} _ _.
Arguments env_passkeyOptions {Outside} _ _ _ _.
Arguments env_confirmTransactionOptions {Outside} _ _ _.
Arguments env_mergeFallbackOptions {Outside} _ _.
Arguments env_parseJwt {Outside} _ _.
Arguments env_NO_LOGIN_OPTIONS_ERROR {Outside} _.
Arguments env_default_isAuthenticated {Outside} _.
Arguments env_default_isFallback {Outside} _.
Arguments env_clientEvents {Outside} _.

(** Modelled from the spec: toAuthResult (lib/defaults) is not under src/;
    the spec describes the result envelope as token, user id, success flag,
    fallback flag.  The token and the user id come from the JWT response,
    the flags from the two further arguments. *)
Definition toAuthResult (authResponse : JWT)
    (authenticated fallback : bool) : AuthResult :=
  {| token := jwtAccess authResponse;
     res_userId := userId authResponse;
     isAuthenticated := authenticated;
     isFallback := fallback |}.

(** ** The monad of the flows *)

Record Run (Outside A : Type) : Type := {
  outcome : JsError + A;
  final : World Outside;
  log : list Event;
}.
Arguments outcome {Outside A} _.
Arguments final {Outside A} _.
Arguments log {Outside A} _.

Definition M (Outside A : Type) : Type := World Outside -> Run Outside A.

Declare Scope flow_scope.
Delimit Scope flow_scope with flow.

Section Flows.

Context {Outside : Type} (env : Env Outside).

Local Abbreviation oracle := (env_oracle env).
Local Abbreviation jwtCookieName := (env_jwtCookieName env).
Local Abbreviation deviceIdKey := (env_deviceIdKey env).
Local Abbreviation passkeyOptions := (env_passkeyOptions env).
Local Abbreviation confirmTransactionOptions :=
  (env_confirmTransactionOptions env).
Local Abbreviation mergeFallbackOptions := (env_mergeFallbackOptions env).
Local Abbreviation parseJwt := (env_parseJwt env).
Local Abbreviation NO_LOGIN_OPTIONS_ERROR := (env_NO_LOGIN_OPTIONS_ERROR env).
Local Abbreviation default_isAuthenticated :=
  (env_default_isAuthenticated env).
Local Abbreviation default_isFallback := (env_default_isFallback env).
Local Abbreviation clientEvents := (env_clientEvents env).
Local Abbreviation World := (World Outside).
Local Abbreviation Run := (Run Outside).
Local Abbreviation M := (M Outside).

(** Modelled from the spec: SessionManager.setJwtCookie and
    DeviceStore.persistDeviceId are not under src/; the spec says that
    nothing persists beyond a token/device-id pair written to local
    storage/cookie.  setJwtCookie writes the token under the session
    cookie's name, persistDeviceId writes a defined device id under the
    application's key; no other call of the class is a store writer. *)
Definition effect (c : Call) (s : Storage) : Storage :=
  match c with
  | setJwtCookie jwt =>
      {| cookies := <[jwtCookieName := jwt]> (cookies s);
         localStorage := localStorage s |}
  | persistDeviceId app (Some d) =>
      {| cookies := cookies s;
         localStorage := <[deviceIdKey app := d]> (localStorage s) |}
  | _ => s
  end.

Definition ret {A : Type} (a : A) : M A :=
  fun w => {| outcome := inr a; final := w; log := [] |}.

Definition throw {A : Type} (e : JsError) : M A :=
  fun w => {| outcome := inl e; final := w; log := [] |}.

Definition bind {A B : Type} (m : M A) (k : A -> M B) : M B :=
  fun w =>
    let r := m w in
    match outcome r with
    | inl e => {| outcome := inl e; final := final r; log := log r |}
    | inr a =>
        let r' := k a (final r) in
        {| outcome := outcome r'; final := final r';
           log := log r ++ log r' |}
    end.

(** [try { m } catch (error) { h error }]. *)
Definition try_catch {A : Type} (m : M A) (h : JsError -> M A) : M A :=
  fun w =>
    let r := m w in
    match outcome r with
    | inr a => r
    | inl e =>
        let r' := h e (final r) in
        {| outcome := outcome r'; final := final r';
           log := log r ++ log r' |}
    end.

(** The world after the call [c] was answered: the store effect of a
    resolved call is applied, the outside has moved on. *)
Definition after (c : Call) (w : World) : World :=
  let ans := oracle c (storage w) (outside w) in
  {| storage := match fst ans with
                | inr _ => effect c (storage w)
                | inl _ => storage w
                end;
     outside := snd ans |}.

(** [await c]: the call is made and logged with its answer; a rejection is
    thrown. *)
Definition perform (c : Call) : M (Resp c) :=
  fun w =>
    {| outcome := fst (oracle c (storage w) (outside w));
       final := after c w;
       log := [Ev c (fst (oracle c (storage w) (outside w)))] |}.

(** A call whose promise is not awaited.  When the call itself throws
    (answer [inl]), the throw propagates like any other; once it has
    returned (answer [inr]) the flow goes on, and what becomes of the
    promise it returned is never observed. *)
Definition fire (c : Call) : M unit :=
  fun w =>
    let r := perform c w in
    {| outcome := match outcome r with
                  | inl e => inl e
                  | inr _ => inr tt
                  end;
       final := final r; log := log r |}.

(** A pure helper that may throw. *)
Definition lift {A : Type} (r : JsError + A) : M A :=
  match r with
  | inl e => throw e
  | inr a => ret a
  end.

(** The run [r] seen after the event [e]. *)
Definition prepend {A : Type} (e : Event) (r : Run A) : Run A :=
  {| outcome := outcome r; final := final r; log := e :: log r |}.

Notation "x <- m ;; k" := (bind m (fun x => k))
  (at level 20, m at level 99, k at level 200, only parsing) : flow_scope.
Notation "m ;;; k" := (bind m (fun _ => k))
  (at level 20, k at level 200, only parsing) : flow_scope.
Local Open Scope flow_scope.

(** ** The class Passkeys *)

(** invokePasskeyApi: runs [fn]; on a throw of an Error instance it
    builds the client-events service from the stored configuration and
    calls reportError, whose promise is not awaited; then it throws the
    caught value again.  Nothing guards the catch block: when building the
    service throws, or reportError itself throws, that error leaves the
    method instead of the caught one. *)
Definition invokePasskeyApi {T : Type} (session : string) (fn : M T) : M T :=
  try_catch fn
    (fun error =>
       (if instanceofError error
        then
          lift clientEvents ;;;
          fire (reportError session error)
        else ret tt) ;;;
       throw error).

Definition createPasskey (username authzToken : string) (options : Options)
  : M AuthResult :=
  appId <- perform getAppId ;;
  deviceId <- perform (getDeviceId appId) ;;
  deviceInfo <- perform (defaultDeviceInfo deviceId) ;;
  let opts := passkeyOptions username authzToken options in
  tok <- perform (getToken opts) ;;
  tok <- (if truthy tok
          then
            (* guard against username mismatch *)
            parsedToken <- lift (parseJwt tok) ;;
            ret (if decide (jwt_username parsedToken = Some username)
                 then tok else "")
          else ret tok) ;;
  trustInfo <- perform (setOrSignWithTrustId appId username) ;;
  let regInitRequestBody :=
    {| reg_app_id := appId;
       reg_deviceInfo := deviceInfo;
       reg_user := {| user_username := username;
                      user_usernameType := usernameType opts;
                      user_displayName := displayName opts |};
       reg_securityKey := crossPlatform options;
       reg_trustItems := spread_if_truthy trustInfo |} in
  regInitResponseBody <-
    perform (regRegInit regInitRequestBody
               (if truthy tok then Some tok else None)) ;;
  invokePasskeyApi (reg_session regInitResponseBody)
    (regCompleteRequestBody <-
       perform (createNavigatorCredential regInitResponseBody) ;;
     let regCompleteRequestBody :=
       if truthyOpt (passkeyName options)
       then set_passkeyName regCompleteRequestBody (passkeyName options)
       else regCompleteRequestBody in
     regCompleteResponse <- perform (regRegComplete regCompleteRequestBody) ;;
     let result :=
       toAuthResult regCompleteResponse
         default_isAuthenticated default_isFallback in
     perform (setJwtCookie (jwtAccess regCompleteResponse)) ;;;
     perform (persistDeviceId appId
                (js_or deviceId (jwt_deviceId regCompleteResponse))) ;;;
     ret result).

Definition authenticateWithPasskey (username : string) (options : Options)
  : M AuthResult :=
  appId <- perform getAppId ;;
  deviceId <- perform (getDeviceId appId) ;;
  deviceInfo <- perform (defaultDeviceInfo deviceId) ;;
  let opts := passkeyOptions username "" options in
  trustInfo <-
    perform (setOrSignWithTrustId appId
               (if autoFill options then "" else username)) ;;
  let authInitRequestBody :=
    {| auth_app_id := appId;
       auth_deviceInfo := deviceInfo;
       auth_user := {| user_username := username;
                       user_usernameType := usernameType opts;
                       user_displayName := None |};
       auth_trustItems := spread_if_truthy trustInfo |} in
  authInitResponseBody <- perform (authAuthInit authInitRequestBody) ;;
  if String.eqb (action authInitResponseBody) "proceed" then
    invokePasskeyApi (session authInitResponseBody)
      (authCompleteRequestBody <-
         perform (getNavigatorCredential authInitResponseBody
                    (Some options)) ;;
       authCompleteResponse <-
         perform (authAuthComplete authCompleteRequestBody) ;;
       let result :=
         toAuthResult authCompleteResponse
           default_isAuthenticated default_isFallback in
       perform (setJwtCookie (token result)) ;;;
       perform (persistDeviceId appId (jwt_deviceId authCompleteResponse)) ;;;
       match onSuccess_of opts with
       | Some cb => perform (callOnSuccess cb result)
       | None => ret tt
       end ;;;
       ret result)
  else if String.eqb (action authInitResponseBody) "crossAuth"
          || String.eqb (action authInitResponseBody) "fallback" then
    match onFallback_of opts with
    | Some cb =>
        let fallbackOptions := mergeFallbackOptions authInitResponseBody in
        perform (callOnFallback cb username fallbackOptions)
    | None => ret tt
    end ;;;
    let emptyResponse :=
      {| userId := ""; jwtAccess := ""; jwt_deviceId := None |} in
    ret (toAuthResult emptyResponse false true)
  else
    throw NO_LOGIN_OPTIONS_ERROR.

Definition authenticateWithPasskeyAutofill (options : Options)
  : M AuthResult :=
  let options := set_autoFill options true in
  authenticateWithPasskey "" options.

Definition requestOtp (username : string) (options : Options) : M Otp :=
  tok <- perform (getToken options) ;;
  let options := set_authzToken options (Some tok) in
  (* if no token is found, perform authentication *)
  tok <- (if negb (truthy tok)
          then
            result <- authenticateWithPasskey username options ;;
            (* get token after authentication *)
            ret (token result)
          else ret tok) ;;
  perform (authAuthCodeRequest tok).

Definition confirmTransaction (username txPayload : string)
    (options : Options) : M TxComplete :=
  let opts := confirmTransactionOptions username options in
  let txInitRequestBody :=
    {| tx_username := username;
       tx_txPayload := txPayload;
       tx_nonce := nonce opts;
       tx_txType := txType opts |} in
  txInitResponse <- perform (txTxInit txInitRequestBody) ;;
  let authInitResponseBody :=
    {| action := "proceed";
       crossAuthMethods := [];
       fallbackMethods := [];
       assertionOptions := tx_assertionOptions txInitResponse;
       session := tx_session txInitResponse |} in
  invokePasskeyApi (session authInitResponseBody)
    (credential <-
       perform (getNavigatorCredential authInitResponseBody None) ;;
     let txCompleteRequestBody :=
       {| txc_authenticatorData :=
            authenticatorData (assertionResult credential);
          txc_clientData := clientDataJSON (assertionResult credential);
          txc_keyHandle := credentialId (assertionResult credential);
          txc_session := tx_session txInitResponse;
          txc_signature := signature (assertionResult credential) |} in
     perform (txTxComplete txCompleteRequestBody)).

(** ** Reading the log of a run *)

(** The answer of a resolved authAuthInit call. *)
Definition auth_init_answer (e : Event) : option AuthInit :=
  match ev_call e as c return (JsError + Resp c -> option AuthInit) with
  | authAuthInit _ =>
      fun r => match r with inr init => Some init | inl _ => None end
  | _ => fun _ => None
  end (ev_result e).

Definition auth_init_answers (l : list Event) : list AuthInit :=
  omap auth_init_answer l.

Definition calls (l : list Event) : list Call := map ev_call l.

(** The token a resolved getToken call yielded. *)
Definition token_answer (e : Event) : option string :=
  match ev_call e as c return (JsError + Resp c -> option string) with
  | getToken _ =>
      fun r => match r with inr t => Some t | inl _ => None end
  | _ => fun _ => None
  end (ev_result e).

Definition token_answers (l : list Event) : list string :=
  omap token_answer l.

(** The session string of a resolved init call (regRegInit, authAuthInit
    or txTxInit). *)
Definition init_session (e : Event) : option string :=
  match ev_call e as c return (JsError + Resp c -> option string) with
  | regRegInit _ _ =>
      fun r => match r with inr i => Some (reg_session i) | inl _ => None end
  | authAuthInit _ =>
      fun r => match r with inr i => Some (session i) | inl _ => None end
  | txTxInit _ =>
      fun r => match r with inr i => Some (tx_session i) | inl _ => None end
  | _ => fun _ => None
  end (ev_result e).

Definition init_sessions (l : list Event) : list string :=
  omap init_session l.

(** The name of the function a call goes to. *)
Definition call_name (c : Call) : string :=
  match c with
  | getAppId => "getAppId"
  | getDeviceId _ => "getDeviceId"
  | defaultDeviceInfo _ => "defaultDeviceInfo"
  | getToken _ => "getToken"
  | setOrSignWithTrustId _ _ => "setOrSignWithTrustId"
  | regRegInit _ _ => "regRegInit"
  | createNavigatorCredential _ => "createNavigatorCredential"
  | regRegComplete _ => "regRegComplete"
  | setJwtCookie _ => "setJwtCookie"
  | persistDeviceId _ _ => "persistDeviceId"
  | authAuthInit _ => "authAuthInit"
  | getNavigatorCredential _ _ => "getNavigatorCredential"
  | authAuthComplete _ => "authAuthComplete"
  | callOnSuccess _ _ => "onSuccess"
  | callOnFallback _ _ _ => "onFallback"
  | authAuthCodeRequest _ => "authAuthCodeRequest"
  | txTxInit _ => "txTxInit"
  | txTxComplete _ => "txTxComplete"
  | reportError _ _ => "reportError"
  end.

Definition call_names (l : list Event) : list string :=
  map call_name (calls l).

(** The store-writing calls of a run, in order. *)
Definition storage_writes (l : list Event) : list Call :=
  List.filter is_storage_write (calls l).

(** The order of the calls of authenticateWithPasskey on the path through
    the proceed branch. *)
Definition authenticate_proceed_order : list string :=
  ["getAppId"; "getDeviceId"; "defaultDeviceInfo"; "setOrSignWithTrustId";
   "authAuthInit"; "getNavigatorCredential"; "authAuthComplete";
   "setJwtCookie"; "persistDeviceId"; "onSuccess"].

Definition no_ceremony_call (c : Call) : Prop :=
  is_credential_call c = false /\ is_completion_call c = false.


(** Every call of the log resolved. *)
Definition all_resolved (l : list Event) : bool := forallb ev_ok l.

(** The persistent state [s'] differs from [s] at most in the session
    cookie and in device-id entries of local storage. *)
Definition only_token_and_device_written (s s' : Storage) : Prop :=
  (forall k : string,
      k <> jwtCookieName -> cookies s' !! k = cookies s !! k) /\
  (forall k : string,
      (forall app : string, k <> deviceIdKey app) ->
      localStorage s' !! k = localStorage s !! k).


(** A program that, from any world, changes the persistent state at most
    in the session cookie and in device-id entries. *)
Definition confined {A : Type} (m : M A) : Prop :=
  forall w : World,
    only_token_and_device_written (storage w) (storage (final (m w))).

End Flows.

(** ** A concrete environment

    A backend that answers authAuthInit with a chosen action, a browser that
    produces a fixed assertion, and a choice of calls that throw.  It is
    used to run the flows on concrete inputs. *)

Definition demo_error : JsError :=
  ErrorObject "NotAllowedError" "The operation was cancelled".

Definition demo_assertion : AssertionResult :=
  {| authenticatorData := "authData"; clientDataJSON := "clientData";
     credentialId := "cred-1"; signature := "sig" |}.

Definition demo_init (act : string) : AuthInit :=
  {| action := act; crossAuthMethods := ["otp"];
     fallbackMethods := ["ciam"]; assertionOptions := "{}";
     session := "sess-auth" |}.

Definition demo_jwt : JWT :=
  {| userId := "user-1"; jwtAccess := "jwt:alice";
     jwt_deviceId := Some "dev-2" |}.

Definition demo_answer (act : string) (s : Storage) (c : Call) : Resp c :=
  match c as c0 return Resp c0 with
  | getAppId => "app-1"
  | getDeviceId _ => "dev-1"
  | defaultDeviceInfo _ => "{}"
  | getToken o =>
      match authzToken o with
      | Some t => t
      | None => default "" (cookies s !! "jwt")
      end
  | setOrSignWithTrustId _ _ => Some "trust-jws"
  | regRegInit _ _ =>
      {| reg_session := "sess-reg"; registrationRequestOptions := "{}" |}
  | createNavigatorCredential r =>
      {| creationResult := "{}"; rc_session := reg_session r;
         rc_passkeyName := None |}
  | regRegComplete _ => demo_jwt
  | setJwtCookie _ => tt
  | persistDeviceId _ _ => tt
  | authAuthInit _ => demo_init act
  | getNavigatorCredential i _ =>
      {| assertionResult := demo_assertion; ac_session := session i |}
  | authAuthComplete _ => demo_jwt
  | callOnSuccess _ _ => tt
  | callOnFallback _ _ _ => tt
  | authAuthCodeRequest _ => {| code := "123456"; expiresAt := "soon" |}
  | txTxInit _ => {| tx_assertionOptions := "{}"; tx_session := "sess-tx" |}
  | txTxComplete _ =>
      {| txc_token := "jwt:tx"; txc_credentialId := "cred-1";
         txc_nonce := "n-1" |}
  | reportError _ _ => tt
  end.

Definition demo_oracle (act : string) (failing : Call -> bool) (c : Call)
    (s : Storage) (o : unit) : (JsError + Resp c) * unit :=
  (if failing c then inl demo_error else inr (demo_answer act s c), o).

Definition nothing_fails (c : Call) : bool := false.

Definition demo_passkeyOptions (username authz : string) (o : Options)
  : Options :=
  {| authzToken := if truthy authz then Some authz else None;
     usernameType := Some (default "other" (usernameType o));
     displayName := Some (default username (displayName o));
     callbacks := callbacks o;
     crossPlatform := crossPlatform o; passkeyName := passkeyName o;
     autoFill := autoFill o; nonce := nonce o; txType := txType o;
     webauthn := webauthn o |}.

Definition demo_confirmTransactionOptions (username : string) (o : Options)
  : Options :=
  {| authzToken := authzToken o;
     usernameType := usernameType o;
     displayName := displayName o;
     callbacks := callbacks o;
     crossPlatform := crossPlatform o; passkeyName := passkeyName o;
     autoFill := autoFill o;
     nonce := Some (default "n-1" (nonce o));
     txType := Some (default "raw" (txType o));
     webauthn := webauthn o |}.

Definition demo_mergeFallbackOptions (i : AuthInit) : list string :=
  crossAuthMethods i ++ fallbackMethods i.

(** Tokens of the concrete environment read [jwt:<username>]. *)
Definition demo_parseJwt (t : string) : JsError + ParsedJwt :=
  if String.prefix "jwt:" t
  then inr {| jwt_username := Some (substring 4 (String.length t - 4) t) |}
  else inl (ErrorObject "SyntaxError" "malformed token").

Definition demo_NO_LOGIN_OPTIONS_ERROR : JsError :=
  ErrorObject "LoginIDError" "No login options available.".

Definition demo_env (act : string) (failing : Call -> bool) : Env unit :=
  {| env_oracle := demo_oracle act failing;
     env_jwtCookieName := "jwt";
     env_deviceIdKey := fun app => "device-id:" +:+ app;
     env_passkeyOptions := demo_passkeyOptions;
     env_confirmTransactionOptions := demo_confirmTransactionOptions;
     env_mergeFallbackOptions := demo_mergeFallbackOptions;
     env_parseJwt := demo_parseJwt;
     env_NO_LOGIN_OPTIONS_ERROR := demo_NO_LOGIN_OPTIONS_ERROR;
     env_default_isAuthenticated := true;
     env_default_isFallback := false;
     env_clientEvents := inr tt |}.

(** The regRegInit request the concrete environment sees for "alice". *)
Definition demo_reg_body : RegInitRequestBody :=
  {| reg_app_id := "app-1";
     reg_deviceInfo := "{}";
     reg_user := {| user_username := "alice";
                    user_usernameType := Some "other";
                    user_displayName := Some "alice" |};
     reg_securityKey := false;
     reg_trustItems := Some "trust-jws" |}.

Definition empty_storage : Storage := {| cookies := ∅; localStorage := ∅ |}.

Definition fresh_world : World unit :=
  {| storage := empty_storage; outside := tt |}.

(** A browser that already holds the session cookie of [t]. *)
Definition signed_in_world (t : string) : World unit :=
  {| storage := {| cookies := {["jwt" := t]}; localStorage := ∅ |};
     outside := tt |}.

Definition with_callbacks (s f : option Callback) : Options :=
  {| authzToken := None; usernameType := None; displayName := None;
     callbacks := Some {| onSuccess := s; onFallback := f |};
     crossPlatform := false; passkeyName := None;
     autoFill := false; nonce := None; txType := None; webauthn := "" |}.

(** ** Further readers of the log *)

(** The name of a call that threw, with the thrown value. *)
Definition thrown_by (e : Event) : option (string * JsError) :=
  match ev_result e with
  | inl err => Some (call_name (ev_call e), err)
  | inr _ => None
  end.

(** The first call of the log that threw. *)
Definition first_thrown (l : list Event) : option (string * JsError) :=
  head (omap thrown_by l).

(** The response of a resolved completion call of a registration or an
    authentication. *)
Definition completion_answer (e : Event) : option JWT :=
  match ev_call e as c return (JsError + Resp c -> option JWT) with
  | regRegComplete _ =>
      fun r => match r with inr j => Some j | inl _ => None end
  | authAuthComplete _ =>
      fun r => match r with inr j => Some j | inl _ => None end
  | _ => fun _ => None
  end (ev_result e).

Definition completion_answers (l : list Event) : list JWT :=
  omap completion_answer l.

(** The order of the calls of createPasskey. *)
Definition create_order : list string :=
  ["getAppId"; "getDeviceId"; "defaultDeviceInfo"; "getToken";
   "setOrSignWithTrustId"; "regRegInit"; "createNavigatorCredential";
   "regRegComplete"; "setJwtCookie"; "persistDeviceId"].

(** The order of the calls of confirmTransaction. *)
Definition transaction_order : list string :=
  ["txTxInit"; "getNavigatorCredential"; "txTxComplete"].

(** The calls follow [order]: they are a prefix of it, followed by
    reportError when the wrapper reported a failure. *)
Definition follows_order (order : list string) (l : list Event) : Prop :=
  exists p, p `prefix_of` order /\
            (call_names l = p \/ call_names l = p ++ ["reportError"]).

(** Calls of the onSuccess callback, for environments whose callback
    throws. *)
Definition is_success_call (c : Call) : bool :=
  match c with
  | callOnSuccess _ _ => true
  | _ => false
  end.





(** The last call of the log that threw. *)
Definition last_thrown (l : list Event) : option (string * JsError) :=
  last (omap thrown_by l).

(** The functions called inside invokePasskeyApi by one of the flows. *)
Definition inside_wrapper (n : string) : bool :=
  existsb (String.eqb n)
    ["createNavigatorCredential"; "regRegComplete"; "getNavigatorCredential";
     "authAuthComplete"; "txTxComplete"; "setJwtCookie"; "persistDeviceId";
     "onSuccess"].

(** What the run [r] throws when its call [n] threw [e].  Outside
    invokePasskeyApi, and for a value that is not an Error instance, it is
    [e].  For an Error instance thrown inside invokePasskeyApi the catch
    block runs first: when building the client-events service [svc] throws,
    that error is thrown; otherwise reportError is called, and the run
    throws [e] unless reportError itself threw, which then is the last
    thrown call of the log and gives the error of the run. *)
Definition thrown_as_caught {Outside A : Type} (svc : JsError + unit)
    (n : string) (e : JsError) (r : Run Outside A) : Prop :=
  if inside_wrapper n && instanceofError e then
    match svc with
    | inl e' => outcome r = inl e'
    | inr _ =>
        (last_thrown (log r) = Some (n, e) /\ outcome r = inl e) \/
        exists e', last_thrown (log r) = Some ("reportError", e') /\
                   outcome r = inl e'
    end
  else outcome r = inl e.

(** * Properties *)

Section FlowProperties.

Context {Outside : Type} (env : Env Outside).

Local Abbreviation oracle := (env_oracle env).
Local Abbreviation jwtCookieName := (env_jwtCookieName env).
Local Abbreviation deviceIdKey := (env_deviceIdKey env).
Local Abbreviation passkeyOptions := (env_passkeyOptions env).
Local Abbreviation confirmTransactionOptions :=
  (env_confirmTransactionOptions env).
Local Abbreviation mergeFallbackOptions := (env_mergeFallbackOptions env).
Local Abbreviation parseJwt := (env_parseJwt env).
Local Abbreviation NO_LOGIN_OPTIONS_ERROR := (env_NO_LOGIN_OPTIONS_ERROR env).
Local Abbreviation default_isAuthenticated :=
  (env_default_isAuthenticated env).
Local Abbreviation default_isFallback := (env_default_isFallback env).
Local Abbreviation clientEvents := (env_clientEvents env).
Local Abbreviation World := (World Outside).
Local Abbreviation Run := (Run Outside).
Local Abbreviation M := (M Outside).
Local Abbreviation perform := (perform env).
Local Abbreviation fire := (fire env).
Local Abbreviation after := (after env).
Local Abbreviation effect := (effect env).
Local Abbreviation createPasskey := (createPasskey env).
Local Abbreviation authenticateWithPasskey := (authenticateWithPasskey env).
Local Abbreviation authenticateWithPasskeyAutofill :=
  (authenticateWithPasskeyAutofill env).
Local Abbreviation requestOtp := (requestOtp env).
Local Abbreviation confirmTransaction := (confirmTransaction env).

(** ** Equations of the monad *)

Lemma run_eta {A : Type} (r : Run A) :
  {| outcome := outcome r; final := final r; log := log r |} = r.
Proof. destruct r; reflexivity. Qed.

Lemma bind_ret {A B : Type} (a : A) (k : A -> M B) (w : World) :
  bind (ret a) k w = k a w.
Proof. unfold bind, ret; cbn. apply run_eta. Qed.

Lemma bind_throw {A B : Type} (e : JsError) (k : A -> M B) (w : World) :
  bind (throw e) k w = throw e w.
Proof. reflexivity. Qed.

Lemma bind_perform {B : Type} (c : Call) (k : Resp c -> M B) (w : World) :
  bind (perform c) k w =
  match fst (oracle c (storage w) (outside w)) with
  | inl e =>
      {| outcome := inl e; final := after c w; log := [Ev c (inl e)] |}
  | inr x => prepend (Ev c (inr x)) (k x (after c w))
  end.
Proof.
  unfold bind, perform, after, prepend; cbn.
  destruct (fst (oracle c (storage w) (outside w))); reflexivity.
Qed.

Lemma perform_last (c : Call) (w : World) :
  perform c w =
  {| outcome := fst (oracle c (storage w) (outside w));
     final := after c w;
     log := [Ev c (fst (oracle c (storage w) (outside w)))] |}.
Proof. reflexivity. Qed.

Lemma bind_run {A B : Type} (m : M A) (k : A -> M B) (w : World) :
  bind m k w =
  match outcome (m w) with
  | inl e => {| outcome := inl e; final := final (m w); log := log (m w) |}
  | inr a =>
      {| outcome := outcome (k a (final (m w)));
         final := final (k a (final (m w)));
         log := log (m w) ++ log (k a (final (m w))) |}
  end.
Proof. reflexivity. Qed.

Lemma bind_bind {A B C : Type} (m : M A) (k : A -> M B) (h : B -> M C)
    (w : World) :
  bind (bind m k) h w = bind m (fun a => bind (k a) h) w.
Proof.
  unfold bind; cbn.
  destruct (outcome (m w)) as [e | a]; cbn; [ reflexivity | ].
  destruct (outcome (k a (final (m w)))) as [e | b]; cbn; [ reflexivity | ].
  rewrite app_assoc. reflexivity.
Qed.

(** The catch block of invokePasskeyApi, run after [fn] threw [e]. *)
Lemma invoke_throw {T : Type} (session : string) (e : JsError) (w : World) :
  invokePasskeyApi env (T := T) session (throw e) w =
  if instanceofError e
  then
    match clientEvents with
    | inl e' => {| outcome := inl e'; final := w; log := [] |}
    | inr _ =>
        match fst (oracle (reportError session e) (storage w) (outside w))
        with
        | inl e' =>
            {| outcome := inl e'; final := after (reportError session e) w;
               log := [Ev (reportError session e) (inl e')] |}
        | inr u =>
            {| outcome := inl e; final := after (reportError session e) w;
               log := [Ev (reportError session e) (inr u)] |}
        end
    end
  else {| outcome := inl e; final := w; log := [] |}.
Proof.
  unfold invokePasskeyApi, try_catch, throw, bind, fire, perform, ret, lift.
  destruct e as [n m | v]; cbn; [ | reflexivity ].
  destruct clientEvents as [e' | u]; cbn; [ reflexivity | ].
  unfold after.
  destruct (oracle (reportError session (ErrorObject n m))
                   (storage w) (outside w)) as [[e' | u'] o];
    reflexivity.
Qed.

Lemma invoke_ret {T : Type} (session : string) (a : T) (w : World) :
  invokePasskeyApi env session (ret a) w = ret a w.
Proof. reflexivity. Qed.

Lemma invoke_prepend {T : Type} (session : string) (ev : Event)
    (fn fn' : M T) (w w' : World) :
  fn w = prepend ev (fn' w') ->
  invokePasskeyApi env session fn w
  = prepend ev (invokePasskeyApi env session fn' w').
Proof.
  intros H. unfold invokePasskeyApi, try_catch. rewrite H.
  unfold prepend. destruct (fn' w') as [[e | a] fin lg]; reflexivity.
Qed.

Lemma invoke_bind_perform {T : Type} (session : string) (c : Call)
    (k : Resp c -> M T) (w : World) :
  invokePasskeyApi env session (bind (perform c) k) w =
  match fst (oracle c (storage w) (outside w)) with
  | inl e =>
      prepend (Ev c (inl e))
        (invokePasskeyApi env session (throw e) (after c w))
  | inr x =>
      prepend (Ev c (inr x)) (invokePasskeyApi env session (k x) (after c w))
  end.
Proof.
  destruct (fst (oracle c (storage w) (outside w))) as [e | x] eqn:H.
  - apply (invoke_prepend session (Ev c (inl e)) _ (throw e)).
    rewrite bind_perform, H. reflexivity.
  - apply (invoke_prepend session (Ev c (inr x)) _ (k x)).
    rewrite bind_perform, H. reflexivity.
Qed.

Lemma invoke_perform (session : string) (c : Call) (w : World) :
  invokePasskeyApi env session (perform c) w =
  match fst (oracle c (storage w) (outside w)) with
  | inl e =>
      prepend (Ev c (inl e))
        (invokePasskeyApi env session (throw e) (after c w))
  | inr x =>
      {| outcome := inr x; final := after c w; log := [Ev c (inr x)] |}
  end.
Proof.
  destruct (fst (oracle c (storage w) (outside w))) as [e | x] eqn:H.
  - apply (invoke_prepend session (Ev c (inl e)) _ (throw e)).
    unfold perform, prepend, throw; cbn. rewrite H. reflexivity.
  - unfold invokePasskeyApi, try_catch, perform; cbn. rewrite H. reflexivity.
Qed.

Lemma invoke_ext {T : Type} (session : string) (fn fn' : M T) (w : World) :
  fn w = fn' w ->
  invokePasskeyApi env session fn w = invokePasskeyApi env session fn' w.
Proof.
  intros H. unfold invokePasskeyApi, try_catch. rewrite H.
  reflexivity.
Qed.

Lemma invoke_bind_ret {A T : Type} (session : string) (a : A)
    (k : A -> M T) (w : World) :
  invokePasskeyApi env session (bind (ret a) k) w
  = invokePasskeyApi env session (k a) w.
Proof. apply invoke_ext, bind_ret. Qed.

Lemma storage_after_resolved (c : Call) (w : World) (x : Resp c) :
  fst (oracle c (storage w) (outside w)) = inr x ->
  storage (after c w) = effect c (storage w).
Proof. intros H. unfold after; cbn. rewrite H. reflexivity. Qed.

Lemma storage_after_thrown (c : Call) (w : World) (e : JsError) :
  fst (oracle c (storage w) (outside w)) = inl e ->
  storage (after c w) = storage w.
Proof. intros H. unfold after; cbn. rewrite H. reflexivity. Qed.

Lemma storage_after_no_write (c : Call) (w : World) :
  is_storage_write c = false ->
  storage (after c w) = storage w.
Proof.
  intros H. unfold after; cbn.
  destruct (fst (oracle c (storage w) (outside w))); [ reflexivity | ].
  destruct c; try discriminate H; reflexivity.
Qed.

(** The callbacks resolve to nothing; their binds are typed at [unit]. *)
Lemma bind_callOnFallback {B : Type} (cb : Callback) (u : string)
    (fo : list string) (k : unit -> M B) (w : World) :
  bind (A := unit) (perform (callOnFallback cb u fo)) k w =
  match fst (oracle (callOnFallback cb u fo) (storage w) (outside w)) with
  | inl e =>
      {| outcome := inl e; final := after (callOnFallback cb u fo) w;
         log := [Ev (callOnFallback cb u fo) (inl e)] |}
  | inr x =>
      prepend (Ev (callOnFallback cb u fo) (inr x))
        (k x (after (callOnFallback cb u fo) w))
  end.
Proof. exact (bind_perform (callOnFallback cb u fo) k w). Qed.

Lemma invoke_bind_callOnSuccess {T : Type} (session : string)
    (cb : Callback) (res : AuthResult) (k : unit -> M T) (w : World) :
  invokePasskeyApi env session
    (bind (A := unit) (perform (callOnSuccess cb res)) k) w =
  match fst (oracle (callOnSuccess cb res) (storage w) (outside w)) with
  | inl e =>
      prepend (Ev (callOnSuccess cb res) (inl e))
        (invokePasskeyApi env session (throw e)
           (after (callOnSuccess cb res) w))
  | inr x =>
      prepend (Ev (callOnSuccess cb res) (inr x))
        (invokePasskeyApi env session (k x) (after (callOnSuccess cb res) w))
  end.
Proof. exact (invoke_bind_perform session (callOnSuccess cb res) k w). Qed.

Lemma invoke_txTxComplete (session : string)
    (body : TxCompleteRequestBody) (w : World) :
  invokePasskeyApi env (T := TxComplete) session
    (perform (txTxComplete body)) w =
  match fst (oracle (txTxComplete body) (storage w) (outside w)) with
  | inl e =>
      prepend (Ev (txTxComplete body) (inl e))
        (invokePasskeyApi env session (throw e)
           (after (txTxComplete body) w))
  | inr x =>
      {| outcome := inr x; final := after (txTxComplete body) w;
         log := [Ev (txTxComplete body) (inr x)] |}
  end.
Proof. exact (invoke_perform session (txTxComplete body) w). Qed.

(** ** Tactics that walk through a run *)

(** The run in hypothesis [H] is brought to the form where its next call,
    its next branch or its end is visible. *)
Ltac flow_simpl H :=
  cbv beta iota zeta in H;
  repeat first
    [ rewrite bind_bind in H
    | rewrite bind_ret in H
    | rewrite bind_throw in H
    | rewrite invoke_bind_ret in H
    | rewrite invoke_ret in H
    | rewrite invoke_throw in H
    | progress cbn [lift] in H
    | progress cbv beta iota zeta in H ].

(** The next call of the run is exposed and its answer analysed. *)
Ltac flow_step H :=
  first
    [ rewrite bind_perform in H
    | rewrite invoke_bind_perform in H
    | rewrite bind_callOnFallback in H
    | rewrite invoke_bind_callOnSuccess in H
    | rewrite invoke_txTxComplete in H
    | rewrite invoke_perform in H
    | rewrite perform_last in H ];
  lazymatch type of H with
  | context [fst (oracle ?c ?s ?o)] =>
      destruct (fst (oracle c s o)) as [?e | ?x] eqn:?
  end.

(** A test of the flow itself is decided both ways. *)
Ltac flow_branch H :=
  match type of H with
  | context [if ?b then _ else _] => destruct b eqn:?
  | context [match ?x with _ => _ end] => destruct x eqn:?
  | context [lift ?x] => destruct x eqn:?
  end.

Ltac flow_run H :=
  repeat (flow_simpl H; first [ flow_step H | flow_branch H ]);
  flow_simpl H; unfold ret, throw in H.

(** At the end of a path the run is an explicit record. *)
Ltac flow_leaf H :=
  rewrite H in *; clear H;
  cbn [outcome final log prepend calls call_names call_name map app
       auth_init_answers auth_init_answer token_answers token_answer
       init_sessions init_session omap list_omap ev_call ev_result
       all_resolved forallb ev_ok andb last storage_writes List.filter
       is_storage_write] in *.

(** The last event of the log is another one than the event named. *)
Ltac other_event H :=
  first
    [ discriminate H
    | injection H as H; apply (f_equal ev_call) in H;
      cbn [ev_call] in H; discriminate H ].

(** Calls that are not store writers leave the persistent state alone. *)
Ltac storage_unchanged :=
  rewrite ?storage_after_no_write by reflexivity; reflexivity.

(** Answers of calls that resolve to nothing are [tt]. *)
Ltac unit_answers :=
  repeat match goal with
    | u : Resp _ |- _ => progress cbn [Resp] in u
    end;
  repeat match goal with
    | u : unit |- _ => destruct u
    end.

(** The persistent state at the end of a path, from the answers on it. *)
Ltac storage_at_end :=
  repeat first
    [ erewrite storage_after_resolved by eassumption
    | erewrite storage_after_thrown by eassumption ];
  cbn [effect cookies localStorage].

(** Which call of an explicit list the call in [H] is. *)
Ltac in_cases H :=
  cbn [In] in H;
  repeat (destruct H as [H | H]);
  try contradiction; try discriminate H.

(** Paths on which two tests of the same value disagree do not exist. *)
Ltac absurd_path :=
  try match goal with
    | H : truthy "" = true |- _ => discriminate H
    | H : true = false |- _ => discriminate H
    | H : false = true |- _ => discriminate H
    | H1 : ?b = true, H2 : ?b = false |- _ =>
        exfalso; rewrite H1 in H2; discriminate H2
    end.

(** Tests on strings and booleans met on a path, as propositions. *)
Ltac eqb_facts :=
  repeat match goal with
    | H : String.eqb _ _ = true |- _ => apply String.eqb_eq in H
    | H : String.eqb _ _ = false |- _ => apply String.eqb_neq in H
    | H : orb _ _ = true |- _ => apply orb_true_iff in H; destruct H
    | H : orb _ _ = false |- _ =>
        apply orb_false_iff in H; destruct H
    end.



(** ** authenticateWithPasskey *)

(** C1. Whatever authAuthInit answers, authenticateWithPasskey leaves the
    switch through the default branch exactly when the action is none of
    "proceed", "crossAuth" and "fallback": then it throws
    NO_LOGIN_OPTIONS_ERROR, authAuthInit is the last call of the run (no
    browser credential call, no completion request) and the persistent
    state is untouched.  Conversely a run that throws with authAuthInit as
    its last call had an action outside the three. *)
Theorem authenticateWithPasskey_dispatch :
  forall (username : string) (options : Options) (w : World)
         (init : AuthInit),
    let r := authenticateWithPasskey username options w in
    auth_init_answers (log r) = [init] ->
    ((action init <> "proceed" /\ action init <> "crossAuth" /\
      action init <> "fallback") ->
     outcome r = inl NO_LOGIN_OPTIONS_ERROR /\
     (exists body,
         last (log r) = Some (Ev (authAuthInit body) (inr init))) /\
     Forall no_ceremony_call (calls (log r)) /\
     storage (final r) = storage w) /\
    ((exists e body,
         outcome r = inl e /\
         last (log r) = Some (Ev (authAuthInit body) (inr init))) ->
     action init <> "proceed" /\ action init <> "crossAuth" /\
     action init <> "fallback").
Proof.
  intros username options w init r.
  remember r as run eqn:Hr. subst r.
  unfold authenticateWithPasskey in Hr.
  flow_run Hr; flow_leaf Hr; intros Hinit; try discriminate Hinit;
    injection Hinit; clear Hinit; intros; subst; eqb_facts.
  all: split; [ intros (Hp & Hc & Hf) | intros (err & body & Hout & Hlast) ].
  all: try congruence.
  all: try discriminate Hout.
  all: try (other_event Hlast).
  all: try (repeat split; assumption).
  all: split; [ reflexivity | ].
  all: split; [ eexists; reflexivity | ].
  all: split; [ repeat constructor | storage_unchanged ].
Qed.

(** C2. When authAuthInit answers "crossAuth" or "fallback", the run makes
    no browser credential call and no completion request; after
    authAuthInit it calls at most the onFallback callback, with the
    username and the merged fallback options, and only when the options
    carry one.  When every call resolved (always so without a callback)
    the result has an empty token, an empty user id, success flag false
    and fallback flag true; no other result is ever returned, and the
    persistent state is untouched. *)
Theorem authenticateWithPasskey_fallback :
  forall (username : string) (options : Options) (w : World)
         (init : AuthInit),
    let r := authenticateWithPasskey username options w in
    let opts := passkeyOptions username "" options in
    let fallback_result :=
      {| token := ""; res_userId := ""; isAuthenticated := false;
         isFallback := true |} in
    auth_init_answers (log r) = [init] ->
    action init = "crossAuth" \/ action init = "fallback" ->
    Forall no_ceremony_call (calls (log r)) /\
    (exists pre body,
        calls (log r)
        = pre ++ authAuthInit body
            :: match onFallback_of opts with
               | Some cb =>
                   [callOnFallback cb username (mergeFallbackOptions init)]
               | None => []
               end) /\
    (onFallback_of opts = None -> outcome r = inr fallback_result) /\
    (all_resolved (log r) = true -> outcome r = inr fallback_result) /\
    (forall res, outcome r = inr res -> res = fallback_result) /\
    storage (final r) = storage w.
Proof.
  intros username options w init r opts fallback_result.
  remember r as run eqn:Hr. subst r opts fallback_result.
  unfold authenticateWithPasskey in Hr.
  flow_run Hr; flow_leaf Hr; intros Hinit Hact; try discriminate Hinit;
    injection Hinit; clear Hinit; intros; subst; eqb_facts.
  all: try (destruct Hact; congruence).
  all: (split; [ repeat constructor | ]).
  all: (split; [ eexists [_; _; _; _], _; reflexivity | ]).
  all: (split; [ intros Hcb; try discriminate Hcb; reflexivity | ]).
  all: (split; [ intros Hres; try discriminate Hres; reflexivity | ]).
  all: (split; [ intros res Hres; try discriminate Hres;
                 injection Hres as <-; reflexivity
               | storage_unchanged ]).
Qed.

(** C5. On the path through the proceed branch the calls follow one
    order: getAppId, getDeviceId, defaultDeviceInfo, setOrSignWithTrustId,
    authAuthInit, getNavigatorCredential, authAuthComplete, setJwtCookie,
    persistDeviceId and the onSuccess callback; a run that stops early has
    made a prefix of it, followed by reportError when the wrapper reported
    the failure.  When every call resolved the run returns.  A run that
    returns has made each of these calls once, each resolved: the request
    body of authAuthInit is built from the arguments, the options'
    defaults and the device and trust answers; the browser credential call
    receives the init response and the caller's options; authAuthComplete
    receives the credential; the result is the completion response mapped
    by toAuthResult; the cookie and the device id are written after that,
    and the cookie then holds the token of the result. *)
Theorem authenticateWithPasskey_proceed_order :
  forall (username : string) (options : Options) (w : World)
         (init : AuthInit),
    let r := authenticateWithPasskey username options w in
    let opts := passkeyOptions username "" options in
    auth_init_answers (log r) = [init] ->
    action init = "proceed" ->
    (exists l,
        l `prefix_of` authenticate_proceed_order /\
        (call_names (log r) = l \/
         call_names (log r) = l ++ ["reportError"])) /\
    (all_resolved (log r) = true -> exists res, outcome r = inr res) /\
    (forall res,
        outcome r = inr res ->
        exists appId deviceId deviceInfo trustInfo credential response,
          let body :=
            {| auth_app_id := appId;
               auth_deviceInfo := deviceInfo;
               auth_user := {| user_username := username;
                               user_usernameType := usernameType opts;
                               user_displayName := None |};
               auth_trustItems := spread_if_truthy trustInfo |} in
          res = toAuthResult response
                  default_isAuthenticated default_isFallback /\
          log r
          = [Ev getAppId (inr appId);
             Ev (getDeviceId appId) (inr deviceId);
             Ev (defaultDeviceInfo deviceId) (inr deviceInfo);
             Ev (setOrSignWithTrustId appId
                   (if autoFill options then "" else username))
                (inr trustInfo);
             Ev (authAuthInit body) (inr init);
             Ev (getNavigatorCredential init (Some options))
                (inr credential);
             Ev (authAuthComplete credential) (inr response);
             Ev (setJwtCookie (token res)) (inr tt);
             Ev (persistDeviceId appId (jwt_deviceId response)) (inr tt)]
            ++ match onSuccess_of opts with
               | Some cb => [Ev (callOnSuccess cb res) (inr tt)]
               | None => []
               end /\
          cookies (storage (final r)) !! jwtCookieName = Some (token res)).
Proof.
  intros username options w init r opts.
  remember r as run eqn:Hr. subst r opts.
  unfold authenticateWithPasskey in Hr.
  flow_run Hr; flow_leaf Hr; intros Hinit Hact; try discriminate Hinit;
    injection Hinit; clear Hinit; intros; subst; eqb_facts;
    try congruence.
  all: split;
    [ match goal with
      | |- exists l, _ /\ (?L = l \/ _) =>
          first
            [ exists L; split; [ eexists; reflexivity | left; reflexivity ]
            | exists (removelast L);
              split; [ eexists; reflexivity | right; reflexivity ] ]
      end
    | ].
  all: split; [ intros Hres; try discriminate Hres; eexists; reflexivity | ].
  all: intros res Hres; try discriminate Hres; injection Hres as <-.
  all: unit_answers.
  all: eexists _, _, _, _, _, _.
  all: split; [ reflexivity | ].
  all: split; [ reflexivity | ].
  all: storage_at_end.
  all: match goal with
       | |- context [jwt_deviceId ?x] => destruct (jwt_deviceId x)
       end; cbn [cookies]; apply lookup_insert_eq.
Qed.

(** C10. authenticateWithPasskeyAutofill(options) is
    authenticateWithPasskey("", options) run on the options with autoFill
    set to true: same result, same final world, same calls.  Every
    authAuthInit request of such a run carries the empty username and
    every trust store query is made with the empty username. *)
Theorem authenticateWithPasskeyAutofill_empty_username :
  forall (options : Options) (w : World),
    let r := authenticateWithPasskeyAutofill options w in
    r = authenticateWithPasskey "" (set_autoFill options true) w /\
    (forall body,
        In (authAuthInit body) (calls (log r)) ->
        user_username (auth_user body) = "") /\
    (forall app u,
        In (setOrSignWithTrustId app u) (calls (log r)) -> u = "").
Proof.
  intros options w r.
  split; [ reflexivity | ].
  remember r as run eqn:Hr. subst r.
  unfold authenticateWithPasskeyAutofill, authenticateWithPasskey in Hr.
  cbn [autoFill set_autoFill] in Hr.
  flow_run Hr; flow_leaf Hr.
  all: split; [ intros body HIn | intros app usr HIn ].
  all: in_cases HIn.
  all: injection HIn; intros; subst; reflexivity.
Qed.

(** ** requestOtp *)

(** C6. requestOtp first asks the session store for a token.  With a
    token it makes exactly one further call, authAuthCodeRequest with that
    token as authorization, and no call of the passkey authentication.
    Without a token it runs authenticateWithPasskey on the same username
    and options, and then calls authAuthCodeRequest with the token of the
    authentication result.  In both cases what requestOtp returns or
    throws is what authAuthCodeRequest answered. *)
Theorem requestOtp_token_or_authenticate :
  forall (username : string) (options : Options) (w : World),
    let r := requestOtp username options w in
    let w1 := after (getToken options) w in
    match fst (oracle (getToken options) (storage w) (outside w)) with
    | inl e => outcome r = inl e /\ calls (log r) = [getToken options]
    | inr tok =>
        if truthy tok then
          calls (log r) = [getToken options; authAuthCodeRequest tok] /\
          outcome r
          = fst (oracle (authAuthCodeRequest tok)
                   (storage w1) (outside w1))
        else
          let ra :=
            authenticateWithPasskey username
              (set_authzToken options (Some tok)) w1 in
          match outcome ra with
          | inl e =>
              outcome r = inl e /\
              calls (log r) = getToken options :: calls (log ra)
          | inr res =>
              calls (log r)
              = getToken options :: calls (log ra)
                  ++ [authAuthCodeRequest (token res)] /\
              outcome r
              = fst (oracle (authAuthCodeRequest (token res))
                       (storage (final ra)) (outside (final ra)))
          end
    end.
Proof.
  intros username options w r w1. subst r w1.
  unfold requestOtp. rewrite bind_perform.
  destruct (fst (oracle (getToken options) (storage w) (outside w)))
    as [e | tok] eqn:Htok; [ split; reflexivity | ].
  cbv beta zeta. unfold prepend.
  destruct (truthy tok) eqn:Htruthy; cbn [negb outcome log].
  - rewrite bind_ret, perform_last. split; reflexivity.
  - rewrite bind_bind, bind_run.
    destruct (outcome (authenticateWithPasskey username
                         (set_authzToken options (Some tok))
                         (after (getToken options) w)))
      as [e | res] eqn:Hauth; cbn [outcome log].
    + split; reflexivity.
    + rewrite bind_ret, perform_last. cbn [outcome log].
      unfold calls. cbn [map]. rewrite map_app. split; reflexivity.
Qed.
(** ** confirmTransaction *)

(** C9. confirmTransaction never writes the cookie or a device id and
    never calls a fallback callback: the persistent state at the end of
    every run is the one at its start.  The init response it hands to the
    browser credential call always has action "proceed" and empty
    crossAuthMethods and fallbackMethods, and no options.  When every call
    resolved the run returns, and what it returns is the answer of
    txTxComplete. *)
Theorem confirmTransaction_no_persistence :
  forall (username txPayload : string) (options : Options) (w : World),
    let r := confirmTransaction username txPayload options w in
    storage (final r) = storage w /\
    Forall (fun c => is_storage_write c = false /\
                     is_fallback_call c = false) (calls (log r)) /\
    (forall authInit o,
        In (getNavigatorCredential authInit o) (calls (log r)) ->
        action authInit = "proceed" /\ crossAuthMethods authInit = [] /\
        fallbackMethods authInit = [] /\ o = None) /\
    (all_resolved (log r) = true -> exists res, outcome r = inr res) /\
    (forall res,
        outcome r = inr res ->
        exists body,
          last (log r) = Some (Ev (txTxComplete body) (inr res))).
Proof.
  intros username txPayload options w r.
  remember r as run eqn:Hr. subst r.
  unfold confirmTransaction in Hr.
  flow_run Hr; flow_leaf Hr.
  all: split; [ storage_unchanged | ].
  all: split; [ repeat constructor | ].
  all: split;
    [ intros authInit o HIn; in_cases HIn;
      injection HIn; intros; subst; repeat split; reflexivity | ].
  all: split;
    [ intros Hres; try discriminate Hres; eexists; reflexivity | ].
  all: intros res Hres; try discriminate Hres; injection Hres as <-.
  all: eexists; reflexivity.
Qed.

(** ** createPasskey *)

(** C7. Whenever createPasskey calls regRegInit, the authorization it
    attaches is decided by the token the session store yielded: the token
    itself when it is non-empty and its parsed username is the username
    argument, and no authorization at all when the token is empty or its
    parsed username differs.  regRegInit is called whenever every call
    before it resolved and a non-empty token could be parsed. *)
Theorem createPasskey_authorization :
  forall (username authz : string) (options : Options) (w : World),
    let r := createPasskey username authz options w in
    (forall body auth,
        In (regRegInit body auth) (calls (log r)) ->
        exists tok,
          token_answers (log r) = [tok] /\
          match auth with
          | Some t =>
              t = tok /\ truthy tok = true /\
              exists p, parseJwt tok = inr p /\
                        jwt_username p = Some username
          | None =>
              truthy tok = false \/
              exists p, parseJwt tok = inr p /\
                        jwt_username p <> Some username
          end) /\
    (all_resolved (log r) = true ->
     (forall tok, token_answers (log r) = [tok] -> truthy tok = true ->
                  exists p, parseJwt tok = inr p) ->
     exists body auth, In (regRegInit body auth) (calls (log r))).
Proof.
  intros username authz options w r.
  remember r as run eqn:Hr. subst r.
  unfold createPasskey in Hr.
  flow_run Hr; flow_leaf Hr; absurd_path.
  all: repeat match goal with
         | H : context [decide ?P] |- _ => destruct (decide P)
         end; absurd_path.
  all: split;
    [ intros body auth HIn; in_cases HIn; injection HIn; intros; subst
    | intros Hres Hparse; try discriminate Hres ].
  all: try (eexists; split; [ reflexivity | ];
            first
              [ split; [ reflexivity | ];
                split; [ assumption | ];
                eexists; split; [ eassumption | assumption ]
              | left; assumption
              | right; eexists; split; [ eassumption | assumption ] ]).
  all: try solve [ eexists _, _; cbn [In];
                   repeat first [ left; reflexivity | right ] ].
  all: try (edestruct Hparse as [p Hp]; [ reflexivity | assumption | ];
            congruence).
Qed.

(** ** The session string *)


(** The log of a path, with the calls that threw made explicit. *)
Ltac flow_leaf_more :=
  cbn [first_thrown last_thrown thrown_by head last omap list_omap
       completion_answers completion_answer ev_call ev_result call_name] in *.






(** ** Writes to the persistent state *)

Local Abbreviation only_written := (only_token_and_device_written env).
Local Abbreviation confined := (confined env).

Lemma only_written_refl (s : Storage) : only_written s s.
Proof. split; intros; reflexivity. Qed.

Lemma only_written_trans (s1 s2 s3 : Storage) :
  only_written s1 s2 -> only_written s2 s3 -> only_written s1 s3.
Proof.
  intros [Hc12 Hl12] [Hc23 Hl23]. split; intros k Hk.
  - rewrite Hc23, Hc12 by assumption. reflexivity.
  - rewrite Hl23, Hl12 by assumption. reflexivity.
Qed.

Lemma only_written_effect (c : Call) (s : Storage) :
  only_written s (effect c s).
Proof.
  destruct c; try apply only_written_refl.
  - split; cbn; intros k Hk; [ | reflexivity ].
    apply lookup_insert_ne. congruence.
  - destruct deviceId as [d | ]; [ | apply only_written_refl ].
    split; cbn; intros k Hk; [ reflexivity | ].
    apply lookup_insert_ne. specialize (Hk appId). congruence.
Qed.

Lemma only_written_after (c : Call) (w : World) :
  only_written (storage w) (storage (after c w)).
Proof.
  unfold after; cbn.
  destruct (fst (oracle c (storage w) (outside w)));
    [ apply only_written_refl | apply only_written_effect ].
Qed.

Lemma confined_ret {A : Type} (a : A) : confined (ret a).
Proof. intros w. apply only_written_refl. Qed.

Lemma confined_throw {A : Type} (e : JsError) : confined (throw e : M A).
Proof. intros w. apply only_written_refl. Qed.

Lemma confined_lift {A : Type} (r : JsError + A) : confined (lift r).
Proof. destruct r; [ apply confined_throw | apply confined_ret ]. Qed.

Lemma confined_perform (c : Call) : confined (perform c).
Proof. intros w. apply (only_written_after c w). Qed.

Lemma confined_fire (c : Call) : confined (fire c).
Proof. intros w. apply (only_written_after c w). Qed.

Lemma confined_bind {A B : Type} (m : M A) (k : A -> M B) :
  confined m -> (forall a, confined (k a)) -> confined (bind m k).
Proof.
  intros Hm Hk w. rewrite bind_run.
  destruct (outcome (m w)) as [e | a]; cbn [final].
  - apply Hm.
  - eapply only_written_trans; [ apply Hm | apply Hk ].
Qed.

Lemma confined_try_catch {A : Type} (m : M A) (h : JsError -> M A) :
  confined m -> (forall e, confined (h e)) -> confined (try_catch m h).
Proof.
  intros Hm Hh w. unfold try_catch.
  destruct (outcome (m w)) as [e | a]; cbn [final].
  - eapply only_written_trans; [ apply Hm | apply Hh ].
  - apply Hm.
Qed.

Lemma confined_invokePasskeyApi {T : Type} (session : string) (fn : M T) :
  confined fn -> confined (invokePasskeyApi env session fn).
Proof.
  intros Hfn. apply confined_try_catch; [ assumption | ].
  intros e. apply confined_bind; [ | intros; apply confined_throw ].
  destruct (instanceofError e); [ | apply confined_ret ].
  apply confined_bind; [ apply confined_lift | intros; apply confined_fire ].
Qed.

(** A program built from the operations of the monad is confined. *)
Ltac confined_flow :=
  repeat first
    [ apply confined_ret
    | apply confined_throw
    | apply confined_lift
    | apply confined_perform
    | apply confined_invokePasskeyApi
    | apply confined_bind; [ | intros ? ]
    | match goal with
      | |- context [if ?b then _ else _] => destruct b
      | |- context [match ?x with _ => _ end] => destruct x
      end ].

Lemma createPasskey_confined (username authz : string) (options : Options) :
  confined (createPasskey username authz options).
Proof. unfold createPasskey. confined_flow. Qed.

Lemma authenticateWithPasskey_confined (username : string)
    (options : Options) :
  confined (authenticateWithPasskey username options).
Proof. unfold authenticateWithPasskey. confined_flow. Qed.

Lemma requestOtp_confined (username : string) (options : Options) :
  confined (requestOtp username options).
Proof.
  unfold requestOtp. confined_flow.
  all: apply authenticateWithPasskey_confined.
Qed.

Lemma confirmTransaction_confined (username txPayload : string)
    (options : Options) :
  confined (confirmTransaction username txPayload options).
Proof. unfold confirmTransaction. confined_flow. Qed.

Lemma createPasskey_writes :
  forall (username authz : string) (options : Options) (w : World)
         (res : AuthResult),
    outcome (createPasskey username authz options w) = inr res ->
    exists appId deviceId,
      storage_writes (log (createPasskey username authz options w))
      = [setJwtCookie (token res); persistDeviceId appId deviceId].
Proof.
  intros username authz options w res.
  remember (createPasskey username authz options w) as run eqn:Hr.
  unfold createPasskey in Hr.
  flow_run Hr; flow_leaf Hr; absurd_path.
  all: intros Hres; try discriminate Hres; injection Hres as <-.
  all: eexists _, _; reflexivity.
Qed.

Lemma authenticateWithPasskey_writes :
  forall (username : string) (options : Options) (w : World)
         (res : AuthResult),
    outcome (authenticateWithPasskey username options w) = inr res ->
    storage_writes (log (authenticateWithPasskey username options w)) = []
    \/ exists appId deviceId,
         storage_writes (log (authenticateWithPasskey username options w))
         = [setJwtCookie (token res); persistDeviceId appId deviceId].
Proof.
  intros username options w res.
  remember (authenticateWithPasskey username options w) as run eqn:Hr.
  unfold authenticateWithPasskey in Hr.
  flow_run Hr; flow_leaf Hr; absurd_path.
  all: intros Hres; try discriminate Hres; injection Hres as <-.
  all: first [ left; reflexivity | right; eexists _, _; reflexivity ].
Qed.

(** C4. The flows change the persistent client state only through
    setJwtCookie and persistDeviceId.  A run of createPasskey that returns
    has made exactly two store-writing calls, setJwtCookie with the token
    of the result and then persistDeviceId; a run of
    authenticateWithPasskey that returns has made these two or, on the
    fallback path, none.  After any run of any of the five public
    operations every cookie other than the session cookie and every local
    storage entry other than a device-id entry is what it was before. *)
Theorem persistent_writes_token_and_device_only :
  (forall (username authz : string) (options : Options) (w : World),
      let r := createPasskey username authz options w in
      only_written (storage w) (storage (final r)) /\
      forall res,
        outcome r = inr res ->
        exists appId deviceId,
          storage_writes (log r)
          = [setJwtCookie (token res); persistDeviceId appId deviceId]) /\
  (forall (username : string) (options : Options) (w : World),
      let r := authenticateWithPasskey username options w in
      only_written (storage w) (storage (final r)) /\
      forall res,
        outcome r = inr res ->
        storage_writes (log r) = [] \/
        exists appId deviceId,
          storage_writes (log r)
          = [setJwtCookie (token res); persistDeviceId appId deviceId]) /\
  (forall (options : Options) (w : World),
      only_written (storage w)
        (storage (final (authenticateWithPasskeyAutofill options w)))) /\
  (forall (username : string) (options : Options) (w : World),
      only_written (storage w)
        (storage (final (requestOtp username options w)))) /\
  (forall (username txPayload : string) (options : Options) (w : World),
      only_written (storage w)
        (storage (final (confirmTransaction username txPayload options w)))).
Proof.
  repeat split.
  - apply createPasskey_confined.
  - apply createPasskey_confined.
  - apply createPasskey_writes.
  - apply authenticateWithPasskey_confined.
  - apply authenticateWithPasskey_confined.
  - apply authenticateWithPasskey_writes.
  - apply authenticateWithPasskey_confined.
  - apply authenticateWithPasskey_confined.
  - apply requestOtp_confined.
  - apply requestOtp_confined.
  - apply confirmTransaction_confined.
  - apply confirmTransaction_confined.
Qed.
(** * Further properties of the flows *)

(** ** A wrapped flow followed by more of the caller *)

Lemma bind_ext {A B : Type} (m m' : M A) (k : A -> M B) (w : World) :
  m w = m' w -> bind m k w = bind m' k w.
Proof. intros H. unfold bind. rewrite H. reflexivity. Qed.

Lemma bind_prepend {A B : Type} (ev : Event) (m m' : M A) (k : A -> M B)
    (w w' : World) :
  m w = prepend ev (m' w') -> bind m k w = prepend ev (bind m' k w').
Proof.
  intros H. unfold bind. rewrite H. unfold prepend.
  destruct (m' w') as [[e | a] fin lg]; reflexivity.
Qed.

Lemma bind_invoke_bind_perform {T B : Type} (session : string) (c : Call)
    (f : Resp c -> M T) (k : T -> M B) (w : World) :
  bind (invokePasskeyApi env session (bind (perform c) f)) k w =
  match fst (oracle c (storage w) (outside w)) with
  | inl e =>
      prepend (Ev c (inl e))
        (bind (invokePasskeyApi env session (throw e)) k (after c w))
  | inr x =>
      prepend (Ev c (inr x))
        (bind (invokePasskeyApi env session (f x)) k (after c w))
  end.
Proof.
  destruct (fst (oracle c (storage w) (outside w))) as [e | x] eqn:H;
    apply bind_prepend; rewrite invoke_bind_perform, H; reflexivity.
Qed.

Lemma bind_invoke_bind_callOnSuccess {T B : Type} (session : string)
    (cb : Callback) (res : AuthResult) (f : unit -> M T) (k : T -> M B)
    (w : World) :
  bind (invokePasskeyApi env session
          (bind (A := unit) (perform (callOnSuccess cb res)) f)) k w =
  match fst (oracle (callOnSuccess cb res) (storage w) (outside w)) with
  | inl e =>
      prepend (Ev (callOnSuccess cb res) (inl e))
        (bind (invokePasskeyApi env session (throw e)) k
           (after (callOnSuccess cb res) w))
  | inr x =>
      prepend (Ev (callOnSuccess cb res) (inr x))
        (bind (invokePasskeyApi env session (f x)) k
           (after (callOnSuccess cb res) w))
  end.
Proof.
  exact (bind_invoke_bind_perform session (callOnSuccess cb res) f k w).
Qed.

Lemma bind_invoke_bind_ret {A T B : Type} (session : string) (a : A)
    (f : A -> M T) (k : T -> M B) (w : World) :
  bind (invokePasskeyApi env session (bind (ret a) f)) k w
  = bind (invokePasskeyApi env session (f a)) k w.
Proof. apply bind_ext, invoke_bind_ret. Qed.

Lemma bind_invoke_ret {T B : Type} (session : string) (a : T)
    (k : T -> M B) (w : World) :
  bind (invokePasskeyApi env session (ret a)) k w = k a w.
Proof.
  rewrite (bind_ext _ (ret a)) by apply invoke_ret. apply bind_ret.
Qed.

Lemma bind_invoke_throw {T B : Type} (session : string) (e : JsError)
    (k : T -> M B) (w : World) :
  bind (invokePasskeyApi env session (throw e)) k w =
  if instanceofError e
  then
    match clientEvents with
    | inl e' => {| outcome := inl e'; final := w; log := [] |}
    | inr _ =>
        match fst (oracle (reportError session e) (storage w) (outside w))
        with
        | inl e' =>
            {| outcome := inl e'; final := after (reportError session e) w;
               log := [Ev (reportError session e) (inl e')] |}
        | inr u =>
            {| outcome := inl e; final := after (reportError session e) w;
               log := [Ev (reportError session e) (inr u)] |}
        end
    end
  else {| outcome := inl e; final := w; log := [] |}.
Proof.
  rewrite bind_run, invoke_throw.
  destruct (instanceofError e); [ | reflexivity ].
  destruct clientEvents; [ reflexivity | ].
  destruct (fst (oracle (reportError session e) (storage w) (outside w)));
    reflexivity.
Qed.

(** The walk through a run, for flows that embed a wrapped flow. *)
Ltac flow_simpl_in H :=
  cbv beta iota zeta in H;
  repeat first
    [ rewrite bind_bind in H
    | rewrite bind_ret in H
    | rewrite bind_throw in H
    | rewrite invoke_bind_ret in H
    | rewrite invoke_ret in H
    | rewrite invoke_throw in H
    | rewrite bind_invoke_bind_ret in H
    | rewrite bind_invoke_ret in H
    | rewrite bind_invoke_throw in H
    | progress cbn [lift] in H
    | progress cbv beta iota zeta in H ].

Ltac flow_step_in H :=
  first
    [ rewrite bind_perform in H
    | rewrite invoke_bind_perform in H
    | rewrite bind_invoke_bind_perform in H
    | rewrite bind_callOnFallback in H
    | rewrite invoke_bind_callOnSuccess in H
    | rewrite bind_invoke_bind_callOnSuccess in H
    | rewrite invoke_txTxComplete in H
    | rewrite invoke_perform in H
    | rewrite perform_last in H ];
  lazymatch type of H with
  | context [fst (oracle ?c ?s ?o)] =>
      destruct (fst (oracle c s o)) as [?e | ?x] eqn:?
  end.

Ltac flow_run_in H :=
  repeat (flow_simpl_in H; first [ flow_step_in H | flow_branch H ]);
  flow_simpl_in H; unfold ret, throw in H.

Ltac order_followed :=
  unfold follows_order;
  match goal with
  | |- exists p, _ /\ (?L = p \/ _) =>
      first
        [ exists L; split; [ eexists; reflexivity | left; reflexivity ]
        | exists (removelast L);
          split; [ eexists; reflexivity | right; reflexivity ] ]
  end.

Ltac no_call_twice :=
  lazymatch goal with
  | |- NoDup ?l =>
      apply (bool_decide_unpack _); vm_compute; reflexivity
  end.

(** ** Order of the calls *)

(** X1. Every run of createPasskey, whatever throws, makes its calls in
    one order: getAppId, getDeviceId, defaultDeviceInfo, getToken,
    setOrSignWithTrustId, regRegInit, createNavigatorCredential,
    regRegComplete, setJwtCookie, persistDeviceId.  A run that stops early
    has made a prefix of it; reportError comes only as the last call. *)
Theorem createPasskey_call_order :
  forall (username authz : string) (options : Options) (w : World),
    follows_order create_order
      (log (createPasskey username authz options w)).
Proof.
  intros username authz options w.
  remember (createPasskey username authz options w) as run eqn:Hr.
  unfold createPasskey in Hr.
  flow_run Hr; flow_leaf Hr; absurd_path.
  all: order_followed.
Qed.

(** X2. Every run of confirmTransaction makes its calls in the order
    txTxInit, getNavigatorCredential, txTxComplete, and calls reportError
    only as the last call.  It stops at the first call that throws: that
    call is the last one of the run, or the last one before reportError. *)
Theorem confirmTransaction_call_order :
  forall (username txPayload : string) (options : Options) (w : World),
    let r := confirmTransaction username txPayload options w in
    follows_order transaction_order (log r) /\
    (forall n e,
        first_thrown (log r) = Some (n, e) ->
        exists p,
          p `prefix_of` transaction_order /\
          (call_names (log r) = p ++ [n] \/
           call_names (log r) = p ++ [n; "reportError"])).
Proof.
  intros username txPayload options w r.
  remember r as run eqn:Hr. subst r.
  unfold confirmTransaction in Hr.
  flow_run Hr; flow_leaf Hr; flow_leaf_more.
  all: split; [ order_followed | ].
  all: intros n e' Hth; try discriminate Hth; injection Hth; intros; subst.
  all: match goal with
       | |- exists p, _ /\ (?L = _ \/ _) =>
           first
             [ exists (removelast L);
               split; [ eexists; reflexivity | left; reflexivity ]
             | exists (removelast (removelast L));
               split; [ eexists; reflexivity | right; reflexivity ] ]
       end.
Qed.

(** X3. No run of authenticateWithPasskey or of requestOtp (which embeds
    an authentication) calls the same function twice: nothing is retried,
    whichever call throws. *)
Theorem no_call_made_twice :
  (forall (username : string) (options : Options) (w : World),
      NoDup (call_names (log (authenticateWithPasskey username options w)))) /\
  (forall (username : string) (options : Options) (w : World),
      NoDup (call_names (log (requestOtp username options w)))).
Proof.
  split.
  - intros username options w.
    remember (authenticateWithPasskey username options w) as run eqn:Hr.
    unfold authenticateWithPasskey in Hr.
    flow_run Hr; flow_leaf Hr; absurd_path; no_call_twice.
  - intros username options w.
    remember (requestOtp username options w) as run eqn:Hr.
    unfold requestOtp, authenticateWithPasskey in Hr.
    flow_run_in Hr; flow_leaf Hr; absurd_path; no_call_twice.
Qed.

(** ** Runs that return *)

(** X4. A run of createPasskey that returns has made exactly ten calls,
    each resolved.  The regRegInit body carries the application id, the
    device info, the username with the defaulted username type and display
    name, the securityKey flag exactly when options.crossPlatform is set and
    the trust items exactly when the trust store answered a truthy value.
    regRegComplete receives what the browser produced, with passkeyName set
    exactly when options.passkeyName is truthy.  The result is the mapped
    completion response; the cookie holds its jwtAccess; the device id
    written is the one the device store already held when that is
    non-empty, and the one of the response otherwise. *)
Theorem createPasskey_returning_run :
  forall (username authz : string) (options : Options) (w : World)
         (res : AuthResult),
    let r := createPasskey username authz options w in
    let opts := passkeyOptions username authz options in
    outcome r = inr res ->
    exists appId deviceId deviceInfo tok auth trustInfo regInit credential
           response,
      let body :=
        {| reg_app_id := appId;
           reg_deviceInfo := deviceInfo;
           reg_user := {| user_username := username;
                          user_usernameType := usernameType opts;
                          user_displayName := displayName opts |};
           reg_securityKey := crossPlatform options;
           reg_trustItems := spread_if_truthy trustInfo |} in
      let completion :=
        if truthyOpt (passkeyName options)
        then set_passkeyName credential (passkeyName options)
        else credential in
      let written := if truthy deviceId then Some deviceId
                     else jwt_deviceId response in
      res = toAuthResult response default_isAuthenticated default_isFallback /\
      log r
      = [Ev getAppId (inr appId);
         Ev (getDeviceId appId) (inr deviceId);
         Ev (defaultDeviceInfo deviceId) (inr deviceInfo);
         Ev (getToken opts) (inr tok);
         Ev (setOrSignWithTrustId appId username) (inr trustInfo);
         Ev (regRegInit body auth) (inr regInit);
         Ev (createNavigatorCredential regInit) (inr credential);
         Ev (regRegComplete completion) (inr response);
         Ev (setJwtCookie (jwtAccess response)) (inr tt);
         Ev (persistDeviceId appId written) (inr tt)] /\
      cookies (storage (final r)) !! jwtCookieName
      = Some (jwtAccess response) /\
      (forall d, written = Some d ->
                 localStorage (storage (final r)) !! deviceIdKey appId
                 = Some d).
Proof.
  intros username authz options w res r opts.
  remember r as run eqn:Hr. subst r opts.
  unfold createPasskey in Hr.
  flow_run Hr; flow_leaf Hr; absurd_path.
  all: intros Hres; try discriminate Hres; injection Hres as <-.
  all: unit_answers.
  all: eexists _, _, _, _, _, _, _, _, _.
  all: cbv zeta.
  all: split; [ reflexivity | ].
  all: split; [ reflexivity | ].
  all: storage_at_end; unfold js_or.
  all: match goal with
       | |- context [if truthy ?a then ?b else ?c] =>
           destruct (if truthy a then b else c) as [d0 | ]
       end; cbn [cookies localStorage].
  all: split; [ apply lookup_insert_eq | intros d Hd ].
  all: try discriminate Hd.
  all: injection Hd as <-; apply lookup_insert_eq.
Qed.

(** X5. A run of confirmTransaction that returns has made exactly three
    calls.  txTxInit receives the username, the payload and the nonce and
    transaction type of the defaulted options; the browser credential call
    receives the assertion options and the session of the txTxInit answer;
    txTxComplete receives the authenticator data, client data, credential id
    and signature of the assertion the browser produced, together with the
    session of the txTxInit answer (not the one the browser helper put in
    its answer); the result is the answer of txTxComplete. *)
Theorem confirmTransaction_returning_run :
  forall (username txPayload : string) (options : Options) (w : World)
         (res : TxComplete),
    let r := confirmTransaction username txPayload options w in
    let opts := confirmTransactionOptions username options in
    outcome r = inr res ->
    exists init credential,
      log r
      = [Ev (txTxInit {| tx_username := username;
                         tx_txPayload := txPayload;
                         tx_nonce := nonce opts;
                         tx_txType := txType opts |}) (inr init);
         Ev (getNavigatorCredential
               {| action := "proceed";
                  crossAuthMethods := [];
                  fallbackMethods := [];
                  assertionOptions := tx_assertionOptions init;
                  session := tx_session init |} None) (inr credential);
         Ev (txTxComplete
               {| txc_authenticatorData :=
                    authenticatorData (assertionResult credential);
                  txc_clientData :=
                    clientDataJSON (assertionResult credential);
                  txc_keyHandle := credentialId (assertionResult credential);
                  txc_session := tx_session init;
                  txc_signature := signature (assertionResult credential) |})
            (inr res)].
Proof.
  intros username txPayload options w res r opts.
  remember r as run eqn:Hr. subst r opts.
  unfold confirmTransaction in Hr.
  flow_run Hr; flow_leaf Hr.
  all: intros Hres; try discriminate Hres; injection Hres as <-.
  all: eexists _, _; reflexivity.
Qed.

(** ** Runs that throw *)

(** X6. When the session store yields a non-empty token that parseJwt
    cannot decode, createPasskey throws the error of parseJwt right after
    getToken: the trust store and the backend are never called, nothing is
    reported and the persistent state is untouched. *)
Theorem createPasskey_malformed_token :
  forall (username authz : string) (options : Options) (w : World)
         (tok : string) (e : JsError),
    let r := createPasskey username authz options w in
    token_answers (log r) = [tok] ->
    truthy tok = true ->
    parseJwt tok = inl e ->
    outcome r = inl e /\
    call_names (log r)
    = ["getAppId"; "getDeviceId"; "defaultDeviceInfo"; "getToken"] /\
    storage (final r) = storage w.
Proof.
  intros username authz options w tok e r.
  remember r as run eqn:Hr. subst r.
  unfold createPasskey in Hr.
  flow_run Hr; flow_leaf Hr; absurd_path.
  all: intros Htok Htruthy Hparse; try discriminate Htok.
  all: injection Htok; intros; subst; try congruence.
  all: split; [ congruence | ].
  all: split; [ reflexivity | storage_unchanged ].
Qed.

(** The run of a path throws what [thrown_as_caught] says. *)
Ltac thrown_at_leaf :=
  unfold thrown_as_caught;
  repeat match goal with
    | H : instanceofError ?e = _ |- context [instanceofError ?e] => rewrite H
    | H : env_clientEvents _ = _ |- context [env_clientEvents _] => rewrite H
    end;
  cbn [inside_wrapper existsb String.eqb Ascii.eqb Bool.eqb orb andb];
  flow_leaf_more; cbn [outcome log];
  first [ reflexivity
        | left; split; reflexivity
        | right; eexists; split; reflexivity ].


(** X8. When the onFallback callback throws, authenticateWithPasskey throws
    the same value; unlike a failure in the proceed branch it is not
    reported to the client-events service, and the persistent state is
    untouched. *)
Theorem authenticateWithPasskey_onFallback_throws :
  forall (username : string) (options : Options) (w : World) (e : JsError),
    let r := authenticateWithPasskey username options w in
    first_thrown (log r) = Some ("onFallback", e) ->
    outcome r = inl e /\
    ~ In "reportError" (call_names (log r)) /\
    storage (final r) = storage w.
Proof.
  intros username options w e r.
  remember r as run eqn:Hr. subst r.
  unfold authenticateWithPasskey in Hr.
  flow_run Hr; flow_leaf Hr; flow_leaf_more; absurd_path.
  all: intros Hth; try discriminate Hth; injection Hth as <-.
  all: split; [ reflexivity | ].
  all: split; [ intros HIn; in_cases HIn | storage_unchanged ].
Qed.

(** X9. The onSuccess callback runs after the session has been persisted:
    when it throws, authenticateWithPasskey throws although setJwtCookie
    and persistDeviceId have already been called, and the cookie keeps the
    token that was written.  What the run throws is the value of the
    callback, or, when that is an Error instance and the catch block of
    invokePasskeyApi fails, the error of building the client-events
    service or the value thrown by reportError. *)
Theorem authenticateWithPasskey_onSuccess_throws :
  forall (username : string) (options : Options) (w : World) (e : JsError),
    let r := authenticateWithPasskey username options w in
    first_thrown (log r) = Some ("onSuccess", e) ->
    thrown_as_caught clientEvents "onSuccess" e r /\
    exists tok appId deviceId,
      storage_writes (log r)
      = [setJwtCookie tok; persistDeviceId appId deviceId] /\
      cookies (storage (final r)) !! jwtCookieName = Some tok.
Proof.
  intros username options w e r.
  remember r as run eqn:Hr. subst r.
  unfold authenticateWithPasskey in Hr.
  flow_run Hr; flow_leaf Hr; flow_leaf_more; absurd_path.
  all: intros Hth; try discriminate Hth; injection Hth as <-.
  all: split; [ thrown_at_leaf | ].
  all: eexists _, _, _; split; [ reflexivity | ].
  all: rewrite ?(storage_after_no_write (reportError _ _)) by reflexivity.
  all: storage_at_end.
  all: match goal with
       | |- context [jwt_deviceId ?x] => destruct (jwt_deviceId x)
       end; cbn [cookies]; apply lookup_insert_eq.
Qed.

(** X10. A failed ceremony leaves no session behind: a run of createPasskey
    or of authenticateWithPasskey in which no completion call resolved has
    made no store-writing call and ends in the persistent state it started
    from. *)
Theorem no_write_without_completion :
  (forall (username authz : string) (options : Options) (w : World),
      let r := createPasskey username authz options w in
      completion_answers (log r) = [] ->
      storage_writes (log r) = [] /\ storage (final r) = storage w) /\
  (forall (username : string) (options : Options) (w : World),
      let r := authenticateWithPasskey username options w in
      completion_answers (log r) = [] ->
      storage_writes (log r) = [] /\ storage (final r) = storage w).
Proof.
  split.
  - intros username authz options w r.
    remember r as run eqn:Hr. subst r.
    unfold createPasskey in Hr.
    flow_run Hr; flow_leaf Hr; flow_leaf_more; absurd_path.
    all: intros Hc; try discriminate Hc.
    all: split; [ reflexivity | storage_unchanged ].
  - intros username options w r.
    remember r as run eqn:Hr. subst r.
    unfold authenticateWithPasskey in Hr.
    flow_run Hr; flow_leaf Hr; flow_leaf_more; absurd_path.
    all: intros Hc; try discriminate Hc.
    all: split; [ reflexivity | storage_unchanged ].
Qed.

(** ** How the operations compose *)

(** X11. requestOtp does not look at the fallback flag of the
    authentication it runs: when no token is stored and authAuthInit
    answers "crossAuth" or "fallback", the run goes on to call
    authAuthCodeRequest with the empty string as authorization, unless the
    onFallback callback threw. *)
Theorem requestOtp_after_fallback :
  forall (username : string) (options : Options) (w : World)
         (init : AuthInit),
    let r := requestOtp username options w in
    auth_init_answers (log r) = [init] ->
    action init = "crossAuth" \/ action init = "fallback" ->
    last (calls (log r)) = Some (authAuthCodeRequest "") \/
    exists e, first_thrown (log r) = Some ("onFallback", e).
Proof.
  intros username options w init r.
  remember r as run eqn:Hr. subst r.
  unfold requestOtp, authenticateWithPasskey in Hr.
  flow_run_in Hr; flow_leaf Hr; flow_leaf_more; absurd_path.
  all: intros Hinit Hact; try discriminate Hinit.
  all: injection Hinit; clear Hinit; intros; subst; eqb_facts.
  all: try (destruct Hact; congruence).
  all: first [ left; reflexivity | right; eexists; reflexivity ].
Qed.

(** X12. Whatever the caller's options say, the browser credential call of
    an autofill run receives those options with autoFill switched on and
    nothing else changed. *)
Theorem autofill_options_reach_browser :
  forall (options : Options) (w : World) (init : AuthInit)
         (o : option Options),
    In (getNavigatorCredential init o)
       (calls (log (authenticateWithPasskeyAutofill options w))) ->
    o = Some (set_autoFill options true).
Proof.
  intros options w init o.
  remember (authenticateWithPasskeyAutofill options w) as run eqn:Hr.
  unfold authenticateWithPasskeyAutofill, authenticateWithPasskey in Hr.
  cbn [autoFill set_autoFill] in Hr.
  flow_run Hr; flow_leaf Hr.
  all: intros HIn; in_cases HIn.
  all: injection HIn; intros; subst; reflexivity.
Qed.
End FlowProperties.

(** * The flows on concrete inputs *)

(** A backend that answers authAuthInit with the unknown action "register":
    the run throws NO_LOGIN_OPTIONS_ERROR right after authAuthInit. *)
Lemma authenticateWithPasskey_dispatch_witness :
  let r := authenticateWithPasskey (demo_env "register" nothing_fails)
             "alice" no_options fresh_world in
  auth_init_answers (log r) = [demo_init "register"] /\
  outcome r = inl demo_NO_LOGIN_OPTIONS_ERROR /\
  (exists body,
      last (log r)
      = Some (Ev (authAuthInit body) (inr (demo_init "register")))) /\
  Forall no_ceremony_call (calls (log r)) /\
  storage (final r) = storage fresh_world.
Proof.
  intros r.
  assert (Hinit : auth_init_answers (log r) = [demo_init "register"])
    by (vm_compute; reflexivity).
  split; [ exact Hinit | ].
  apply (proj1 (authenticateWithPasskey_dispatch
                  (demo_env "register" nothing_fails)
                  "alice" no_options fresh_world
                  (demo_init "register") Hinit)).
  cbn [action demo_init]. repeat split; discriminate.
Defined.

(** A backend that answers "fallback" and a caller with an onFallback
    callback: the callback is the only call after authAuthInit and the
    result is the empty fallback result. *)
Lemma authenticateWithPasskey_fallback_witness :
  let r := authenticateWithPasskey (demo_env "fallback" nothing_fails)
             "alice" (with_callbacks None (Some 7)) fresh_world in
  auth_init_answers (log r) = [demo_init "fallback"] /\
  (action (demo_init "fallback") = "crossAuth" \/
   action (demo_init "fallback") = "fallback") /\
  all_resolved (log r) = true /\
  outcome r = inr {| token := ""; res_userId := ""; isAuthenticated := false;
                     isFallback := true |} /\
  In (callOnFallback 7 "alice" ["otp"; "ciam"]) (calls (log r)).
Proof.
  intros r.
  assert (Hinit : auth_init_answers (log r) = [demo_init "fallback"])
    by (vm_compute; reflexivity).
  assert (Hact : action (demo_init "fallback") = "crossAuth" \/
                 action (demo_init "fallback") = "fallback")
    by (right; reflexivity).
  assert (Hres : all_resolved (log r) = true) by (vm_compute; reflexivity).
  split; [ exact Hinit | ]. split; [ exact Hact | ]. split; [ exact Hres | ].
  split.
  - destruct (authenticateWithPasskey_fallback
                (demo_env "fallback" nothing_fails)
                "alice" (with_callbacks None (Some 7)) fresh_world
                (demo_init "fallback") Hinit Hact)
      as (_ & _ & _ & Hall & _).
    exact (Hall Hres).
  - vm_compute. tauto.
Defined.

(** A backend that answers "proceed", with an onSuccess callback: the full
    ceremony runs in order and the cookie ends up holding the token. *)
Lemma authenticateWithPasskey_proceed_order_witness :
  let r := authenticateWithPasskey (demo_env "proceed" nothing_fails)
             "alice" (with_callbacks (Some 1) None) fresh_world in
  auth_init_answers (log r) = [demo_init "proceed"] /\
  action (demo_init "proceed") = "proceed" /\
  call_names (log r) = authenticate_proceed_order /\
  exists res, outcome r = inr res.
Proof.
  intros r.
  assert (Hinit : auth_init_answers (log r) = [demo_init "proceed"])
    by (vm_compute; reflexivity).
  split; [ exact Hinit | ]. split; [ reflexivity | ].
  split; [ vm_compute; reflexivity | ].
  destruct (authenticateWithPasskey_proceed_order
              (demo_env "proceed" nothing_fails)
              "alice" (with_callbacks (Some 1) None) fresh_world
              (demo_init "proceed") Hinit eq_refl)
    as (_ & Hreturns & _).
  apply Hreturns. vm_compute. reflexivity.
Defined.

(** createPasskey called with a token issued for another user: the
    regRegInit request goes out without authorization because the parsed
    username differs. *)
Lemma createPasskey_authorization_witness :
  let r := createPasskey (demo_env "proceed" nothing_fails)
             "alice" "jwt:bob" no_options fresh_world in
  In (regRegInit demo_reg_body None) (calls (log r)) /\
  exists tok,
    token_answers (log r) = [tok] /\
    (truthy tok = false \/
     exists p, demo_parseJwt tok = inr p /\ jwt_username p <> Some "alice").
Proof.
  intros r.
  assert (HIn : In (regRegInit demo_reg_body None) (calls (log r)))
    by (vm_compute; tauto).
  split; [ exact HIn | ].
  exact (proj1 (createPasskey_authorization
                  (demo_env "proceed" nothing_fails)
                  "alice" "jwt:bob" no_options fresh_world)
           demo_reg_body None HIn).
Defined.




(** A transaction confirmed in a signed-in browser: every call resolves,
    so the run returns, and the persistent state is the one it started
    from. *)
Lemma confirmTransaction_no_persistence_witness :
  let r := confirmTransaction (demo_env "proceed" nothing_fails)
             "alice" "pay bob 100" no_options (signed_in_world "jwt:alice") in
  all_resolved (log r) = true /\
  (exists res, outcome r = inr res) /\
  storage (final r) = storage (signed_in_world "jwt:alice").
Proof.
  intros r.
  assert (Hres : all_resolved (log r) = true) by (vm_compute; reflexivity).
  split; [ exact Hres | ].
  destruct (confirmTransaction_no_persistence
              (demo_env "proceed" nothing_fails)
              "alice" "pay bob 100" no_options (signed_in_world "jwt:alice"))
    as (Hstore & _ & _ & Hreturns & _).
  split; [ exact (Hreturns Hres) | exact Hstore ].
Defined.

(** A passkey created for "alice": the run returns and has written the
    cookie with the token of the result, then the device id. *)
Lemma persistent_writes_token_and_device_only_witness :
  let r := createPasskey (demo_env "proceed" nothing_fails)
             "alice" "" no_options fresh_world in
  outcome r = inr (toAuthResult demo_jwt true false) /\
  exists appId deviceId,
    storage_writes (log r)
    = [setJwtCookie "jwt:alice"; persistDeviceId appId deviceId].
Proof.
  intros r.
  assert (Hout : outcome r = inr (toAuthResult demo_jwt true false))
    by (vm_compute; reflexivity).
  split; [ exact Hout | ].
  exact (proj2 (proj1 (persistent_writes_token_and_device_only
                         (demo_env "proceed" nothing_fails))
                  "alice" "" no_options fresh_world)
           (toAuthResult demo_jwt true false) Hout).
Defined.

(** Autofill with options that name no username: the trust store query of
    the run is made with the empty username. *)
Lemma authenticateWithPasskeyAutofill_empty_username_witness :
  let r := authenticateWithPasskeyAutofill (demo_env "proceed" nothing_fails)
             no_options fresh_world in
  In (setOrSignWithTrustId "app-1" "") (calls (log r)) /\
  forall app u, In (setOrSignWithTrustId app u) (calls (log r)) -> u = "".
Proof.
  intros r.
  split; [ vm_compute; tauto | ].
  exact (proj2 (proj2 (authenticateWithPasskeyAutofill_empty_username
                         (demo_env "proceed" nothing_fails)
                         no_options fresh_world))).
Defined.

(** The user cancels the browser dialog: the credential call throws an
    Error instance, the wrapper reports it with the session of the init
    response and throws it again; nothing was written. *)
Example authenticateWithPasskey_cancelled :
  let r := authenticateWithPasskey (demo_env "proceed" is_credential_call)
             "alice" no_options fresh_world in
  outcome r = inl demo_error /\
  call_names (log r)
  = ["getAppId"; "getDeviceId"; "defaultDeviceInfo"; "setOrSignWithTrustId";
     "authAuthInit"; "getNavigatorCredential"; "reportError"] /\
  In (reportError "sess-auth" demo_error) (calls (log r)) /\
  storage_writes (log r) = [].
Proof. vm_compute. tauto. Qed.

(** createPasskey with a token issued for another user: the token is
    cleared and regRegInit goes out without authorization. *)
Example createPasskey_clears_foreign_token :
  let r := createPasskey (demo_env "proceed" nothing_fails)
             "alice" "jwt:bob" no_options fresh_world in
  token_answers (log r) = ["jwt:bob"] /\
  (exists body, In (regRegInit body None) (calls (log r))) /\
  storage_writes (log r)
  = [setJwtCookie "jwt:alice"; persistDeviceId "app-1" (Some "dev-1")].
Proof.
  vm_compute. split; [ reflexivity | ]. split; [ | reflexivity ].
  eexists. do 5 right. left. reflexivity.
Qed.

(** createPasskey with the user's own token: it is attached. *)
Example createPasskey_attaches_own_token :
  let r := createPasskey (demo_env "proceed" nothing_fails)
             "alice" "jwt:alice" no_options fresh_world in
  exists body, In (regRegInit body (Some "jwt:alice")) (calls (log r)).
Proof. vm_compute. eexists. do 5 right. left. reflexivity. Qed.

(** requestOtp in a browser that holds a session cookie: two calls. *)
Example requestOtp_signed_in :
  let r := requestOtp (demo_env "proceed" nothing_fails)
             "alice" no_options (signed_in_world "jwt:alice") in
  calls (log r) = [getToken no_options; authAuthCodeRequest "jwt:alice"] /\
  outcome r = inr {| code := "123456"; expiresAt := "soon" |}.
Proof. vm_compute. split; reflexivity. Qed.

(** requestOtp without a token: the passkey authentication runs first and
    its token authorizes the code request. *)
Example requestOtp_authenticates_first :
  let r := requestOtp (demo_env "proceed" nothing_fails)
             "alice" no_options fresh_world in
  call_names (log r)
  = ["getToken"; "getAppId"; "getDeviceId"; "defaultDeviceInfo";
     "setOrSignWithTrustId"; "authAuthInit"; "getNavigatorCredential";
     "authAuthComplete"; "setJwtCookie"; "persistDeviceId";
     "authAuthCodeRequest"] /\
  In (authAuthCodeRequest "jwt:alice") (calls (log r)).
Proof. vm_compute. split; [ reflexivity | ]. do 10 right. left. reflexivity. Qed.

(** confirmTransaction: three calls, the session of txTxInit in the
    completion request, the persistent state as it was. *)
Example confirmTransaction_run :
  let r := confirmTransaction (demo_env "proceed" nothing_fails)
             "alice" "pay bob 100" no_options (signed_in_world "jwt:alice") in
  call_names (log r) = ["txTxInit"; "getNavigatorCredential"; "txTxComplete"] /\
  init_sessions (log r) = ["sess-tx"] /\
  outcome r = inr {| txc_token := "jwt:tx"; txc_credentialId := "cred-1";
                     txc_nonce := "n-1" |} /\
  cookies (storage (final r)) !! "jwt" = Some "jwt:alice".
Proof. vm_compute. repeat split; reflexivity. Qed.

(** * Further runs on concrete inputs *)

(** A passkey created for "alice" in a fresh browser: the run returns and
    the cookie holds the access token of the completion response. *)
Lemma createPasskey_returning_run_witness :
  let r := createPasskey (demo_env "proceed" nothing_fails)
             "alice" "" no_options fresh_world in
  outcome r = inr (toAuthResult demo_jwt true false) /\
  exists response,
    cookies (storage (final r)) !! "jwt" = Some (jwtAccess response).
Proof.
  intros r.
  assert (Hout : outcome r = inr (toAuthResult demo_jwt true false))
    by (vm_compute; reflexivity).
  split; [ exact Hout | ].
  destruct (createPasskey_returning_run
              (demo_env "proceed" nothing_fails)
              "alice" "" no_options fresh_world
              (toAuthResult demo_jwt true false) Hout)
    as (appId & deviceId & deviceInfo & tok & auth & trustInfo & regInit
        & credential & response & _ & _ & Hcookie & _).
  exists response. exact Hcookie.
Defined.

(** A confirmed transaction: the run returns after three calls. *)
Lemma confirmTransaction_returning_run_witness :
  let r := confirmTransaction (demo_env "proceed" nothing_fails)
             "alice" "pay bob 100" no_options fresh_world in
  outcome r = inr {| txc_token := "jwt:tx"; txc_credentialId := "cred-1";
                     txc_nonce := "n-1" |} /\
  length (log r) = 3.
Proof.
  intros r.
  assert (Hout : outcome r
                 = inr {| txc_token := "jwt:tx"; txc_credentialId := "cred-1";
                          txc_nonce := "n-1" |})
    by (vm_compute; reflexivity).
  split; [ exact Hout | ].
  destruct (confirmTransaction_returning_run
              (demo_env "proceed" nothing_fails)
              "alice" "pay bob 100" no_options fresh_world _ Hout)
    as (init & credential & Hlog).
  unfold r. rewrite Hlog. reflexivity.
Defined.

(** The browser dialog of a transaction is cancelled: the credential call
    is the last call before reportError. *)
Lemma confirmTransaction_call_order_witness :
  let r := confirmTransaction (demo_env "proceed" is_credential_call)
             "alice" "pay bob 100" no_options fresh_world in
  first_thrown (log r) = Some ("getNavigatorCredential", demo_error) /\
  call_names (log r) = ["txTxInit"; "getNavigatorCredential"; "reportError"] /\
  exists p,
    p `prefix_of` transaction_order /\
    (call_names (log r) = p ++ ["getNavigatorCredential"] \/
     call_names (log r) = p ++ ["getNavigatorCredential"; "reportError"]).
Proof.
  intros r.
  assert (Hth : first_thrown (log r)
                = Some ("getNavigatorCredential", demo_error))
    by (vm_compute; reflexivity).
  split; [ exact Hth | ]. split; [ vm_compute; reflexivity | ].
  exact (proj2 (confirmTransaction_call_order
                  (demo_env "proceed" is_credential_call)
                  "alice" "pay bob 100" no_options fresh_world)
           "getNavigatorCredential" demo_error Hth).
Defined.

(** createPasskey called with a token that is no JWT: the run throws the
    error of parseJwt after four calls. *)
Lemma createPasskey_malformed_token_witness :
  let r := createPasskey (demo_env "proceed" nothing_fails)
             "alice" "garbage" no_options fresh_world in
  token_answers (log r) = ["garbage"] /\
  truthy "garbage" = true /\
  demo_parseJwt "garbage" = inl (ErrorObject "SyntaxError" "malformed token") /\
  outcome r = inl (ErrorObject "SyntaxError" "malformed token") /\
  call_names (log r)
  = ["getAppId"; "getDeviceId"; "defaultDeviceInfo"; "getToken"] /\
  storage (final r) = storage fresh_world.
Proof.
  intros r.
  assert (Htok : token_answers (log r) = ["garbage"])
    by (vm_compute; reflexivity).
  split; [ exact Htok | ]. split; [ reflexivity | ]. split; [ reflexivity | ].
  exact (createPasskey_malformed_token
           (demo_env "proceed" nothing_fails)
           "alice" "garbage" no_options fresh_world
           "garbage" (ErrorObject "SyntaxError" "malformed token")
           Htok eq_refl eq_refl).
Defined.


(** The backend answers "fallback" and the caller's onFallback callback
    throws: the error comes out unreported. *)
Lemma authenticateWithPasskey_onFallback_throws_witness :
  let r := authenticateWithPasskey (demo_env "fallback" is_fallback_call)
             "alice" (with_callbacks None (Some 7)) fresh_world in
  first_thrown (log r) = Some ("onFallback", demo_error) /\
  outcome r = inl demo_error /\
  ~ In "reportError" (call_names (log r)) /\
  storage (final r) = storage fresh_world.
Proof.
  intros r.
  assert (Hth : first_thrown (log r) = Some ("onFallback", demo_error))
    by (vm_compute; reflexivity).
  split; [ exact Hth | ].
  exact (authenticateWithPasskey_onFallback_throws
           (demo_env "fallback" is_fallback_call)
           "alice" (with_callbacks None (Some 7)) fresh_world
           demo_error Hth).
Defined.

(** The ceremony succeeds and the caller's onSuccess callback throws: the
    run throws, and the cookie holds the new token all the same. *)
Lemma authenticateWithPasskey_onSuccess_throws_witness :
  let r := authenticateWithPasskey (demo_env "proceed" is_success_call)
             "alice" (with_callbacks (Some 1) None) fresh_world in
  first_thrown (log r) = Some ("onSuccess", demo_error) /\
  thrown_as_caught (inr tt) "onSuccess" demo_error r /\
  exists tok appId deviceId,
    storage_writes (log r)
    = [setJwtCookie tok; persistDeviceId appId deviceId] /\
    cookies (storage (final r)) !! "jwt" = Some tok.
Proof.
  intros r.
  assert (Hth : first_thrown (log r) = Some ("onSuccess", demo_error))
    by (vm_compute; reflexivity).
  split; [ exact Hth | ].
  exact (authenticateWithPasskey_onSuccess_throws
           (demo_env "proceed" is_success_call)
           "alice" (with_callbacks (Some 1) None) fresh_world
           demo_error Hth).
Defined.

(** The credential call is cancelled during a registration: no completion
    call resolved, nothing was written. *)
Lemma no_write_without_completion_witness :
  let r := createPasskey (demo_env "proceed" is_credential_call)
             "alice" "" no_options (signed_in_world "jwt:old") in
  completion_answers (log r) = [] /\
  storage_writes (log r) = [] /\
  storage (final r) = storage (signed_in_world "jwt:old").
Proof.
  intros r.
  assert (Hc : completion_answers (log r) = []) by (vm_compute; reflexivity).
  split; [ exact Hc | ].
  exact (proj1 (no_write_without_completion
                  (demo_env "proceed" is_credential_call))
           "alice" "" no_options (signed_in_world "jwt:old") Hc).
Defined.

(** requestOtp in a fresh browser against a backend that answers
    "fallback": the code request goes out with an empty authorization. *)
Lemma requestOtp_after_fallback_witness :
  let r := requestOtp (demo_env "fallback" nothing_fails)
             "alice" no_options fresh_world in
  auth_init_answers (log r) = [demo_init "fallback"] /\
  (last (calls (log r)) = Some (authAuthCodeRequest "") \/
   exists e, first_thrown (log r) = Some ("onFallback", e)).
Proof.
  intros r.
  assert (Hinit : auth_init_answers (log r) = [demo_init "fallback"])
    by (vm_compute; reflexivity).
  split; [ exact Hinit | ].
  exact (requestOtp_after_fallback
           (demo_env "fallback" nothing_fails)
           "alice" no_options fresh_world (demo_init "fallback")
           Hinit (or_intror eq_refl)).
Defined.

(** Autofill with the caller's callbacks: the browser call of the run
    carries them, with autoFill switched on. *)
Lemma autofill_options_reach_browser_witness :
  let options := with_callbacks (Some 1) None in
  let r := authenticateWithPasskeyAutofill (demo_env "proceed" nothing_fails)
             options fresh_world in
  In (getNavigatorCredential (demo_init "proceed")
        (Some (set_autoFill options true))) (calls (log r)) /\
  Some (set_autoFill options true) = Some (set_autoFill options true).
Proof.
  intros options r.
  assert (HIn : In (getNavigatorCredential (demo_init "proceed")
                      (Some (set_autoFill options true))) (calls (log r)))
    by (vm_compute; tauto).
  split; [ exact HIn | ].
  exact (autofill_options_reach_browser
           (demo_env "proceed" nothing_fails)
           options fresh_world (demo_init "proceed")
           (Some (set_autoFill options true)) HIn).
Defined.
